(** * Linear modules of flax.nn: a shallow embedding of [flax/nn/linear.py]

    The file follows the source top to bottom: [_normalize_axes],
    [DenseGeneral.apply], [Dense.apply], [_conv_dimension_numbers],
    [Conv.apply] and [Embed.apply].  Arrays are flat row-major lists of
    exact integers with a shape and a dtype tag; the array primitives the
    layers call ([lax.dot_general], [lax.gather], [jnp.expand_dims],
    [jnp.concatenate], [jnp.reshape], broadcasting [+], [jnp.asarray]) are
    written out on that representation.  Exceptions are values of [exn];
    the parameter store of the enclosing module is threaded explicitly. *)

From Stdlib Require Import ZArith List Lia Bool.
From stdpp Require Import base gmap strings pretty list sorting fin_maps.
Import ListNotations.

Local Open Scope nat_scope.

(** ** Exceptions and results *)

Inductive exn : Type :=
| ValueError (msg : string)
| IndexError
| AssertionError
| ZeroDivisionError
| LaxError (op : string).

Inductive result (A : Type) : Type :=
| Ok (a : A)
| Raise (e : exn).
Arguments Ok {A} a.
Arguments Raise {A} e.

Definition rbind {A B} (r : result A) (k : A -> result B) : result B :=
  match r with
  | Ok a => k a
  | Raise e => Raise e
  end.

Fixpoint rmapM {A B} (f : A -> result B) (l : list A) : result (list B) :=
  match l with
  | [] => Ok []
  | x :: l' => rbind (f x) (fun y => rbind (rmapM f l') (fun ys => Ok (y :: ys)))
  end.

Fixpoint rfoldM {A B} (f : A -> B -> result A) (l : list B) (a : A) : result A :=
  match l with
  | [] => Ok a
  | x :: l' => rbind (f a x) (rfoldM f l')
  end.

(** ** Element types *)

Inductive DType : Type :=
| bool_ | int8 | int16 | int32 | int64
| uint8 | uint16 | uint32 | uint64
| float16 | bfloat16 | float32 | float64
| complex64 | complex128.

Global Instance DType_eq_dec : EqDecision DType.
Proof. solve_decision. Defined.

Definition dtype_eqb (a b : DType) : bool := bool_decide (a = b).

(** [lax.Precision]: passed through to the contraction, without effect on
    exact arithmetic. *)
Inductive Precision : Type := DEFAULT | HIGH | HIGHEST.

(** ** Arrays *)

Record tensor : Type := mkTensor {
  shape : list nat;
  dtype : DType;
  data : list Z
}.

Definition ndim (t : tensor) : nat := length (shape t).

Definition numel (sh : list nat) : nat := fold_right Nat.mul 1 sh.

Definition wf_tensor (t : tensor) : Prop := length (data t) = numel (shape t).

(** All index vectors of a shape, in row-major order. *)
Fixpoint indices (sh : list nat) : list (list nat) :=
  match sh with
  | [] => [[]]
  | d :: sh' => flat_map (fun i => map (cons i) (indices sh')) (seq 0 d)
  end.

(** Row-major offset of an index vector. *)
Fixpoint ravel (sh idx : list nat) : nat :=
  match sh, idx with
  | _ :: sh', i :: idx' => i * numel sh' + ravel sh' idx'
  | _, _ => 0
  end.

Definition in_bounds (sh idx : list nat) : Prop := Forall2 lt idx sh.

Definition get (t : tensor) (idx : list nat) : Z :=
  nth (ravel (shape t) idx) (data t) 0%Z.

Definition build (dt : DType) (sh : list nat) (f : list nat -> Z) : tensor :=
  {| shape := sh; dtype := dt; data := map f (indices sh) |}.



(** [jnp.asarray(x, dtype)]: over exact arithmetic the cast keeps every
    element and replaces the dtype. *)
Definition asarray (t : tensor) (dt : DType) : tensor :=
  {| shape := shape t; dtype := dt; data := data t |}.

(** ** Python tuples: indexing and slicing *)

(** [t[i]] for a tuple: a negative index counts from the end, an index out
    of range raises IndexError. *)
Definition py_index {A} (l : list A) (i : Z) : result A :=
  let n := Z.of_nat (length l) in
  let j := if (i <? 0)%Z then (n + i)%Z else i in
  if ((0 <=? j) && (j <? n))%Z then
    match nth_error l (Z.to_nat j) with
    | Some x => Ok x
    | None => Raise IndexError
    end
  else Raise IndexError.

(** One bound of a slice: negative counts from the end, then clamped. *)
Definition py_bound (n : nat) (i : Z) : nat :=
  let j := if (i <? 0)%Z then (Z.of_nat n + i)%Z else i in
  Z.to_nat (Z.min (Z.max j 0) (Z.of_nat n)).

(** [t[start:stop]]. *)
Definition py_slice {A} (l : list A) (start stop : option Z) : list A :=
  let n := length l in
  let lo := match start with Some i => py_bound n i | None => 0 end in
  let hi := match stop with Some i => py_bound n i | None => n end in
  firstn (hi - lo) (skipn lo l).

(** [range(n)] and [range(a, b)] over Python integers. *)
Definition py_range (n : Z) : list Z := seqZ 0 n.
Definition py_range2 (a b : Z) : list Z := seqZ a (b - a).

(** [onp.max] of a non-empty tuple. *)
Definition onp_max (l : list Z) : Z :=
  match l with
  | [] => 0%Z
  | x :: l' => fold_left Z.max l' x
  end.

(** [set(t)]. *)
Definition py_set (l : list Z) : gset Z := list_to_set l.

(** [sorted(s)] of a set of integers. *)
Definition py_sorted (s : gset Z) : list Z := merge_sort Z.le (elements s).

(** [onp.prod(t, dtype=onp.int32)]: the product wraps around at 32 bits. *)
Definition wrap_int32 (z : Z) : Z :=
  ((z + 2 ^ 31) mod 2 ^ 32 - 2 ^ 31)%Z.

Definition onp_prod_int32 (l : list nat) : Z :=
  wrap_int32 (Z.of_nat (numel l)).

(** [onp.prod(t)] with the default 64-bit integer; a shape whose product
    does not fit is not the shape of an array, and no wrap-around is
    written for it. *)
Definition onp_prod (l : list nat) : nat := numel l.

(** ** Array primitives of the numerical framework *)

Definition sumZ (l : list Z) : Z := fold_right Z.add 0%Z l.

Definition dim (t : tensor) (d : nat) : nat := nth d (shape t) 0.

Definition memb (p : nat) (l : list nat) : bool := existsb (Nat.eqb p) l.

Fixpoint nodupb (l : list nat) : bool :=
  match l with
  | [] => true
  | x :: l' => negb (memb x l') && nodupb l'
  end.

Fixpoint ascendingb (l : list nat) : bool :=
  match l with
  | [] => true
  | x :: l' => forallb (Nat.ltb x) l' && ascendingb l'
  end.

Definition shape_eqb (a b : list nat) : bool := bool_decide (a = b).

(** A dimension number of a primitive must name an axis of the operand. *)
Definition to_dim (rank : nat) (d : Z) : option nat :=
  if ((0 <=? d) && (d <? Z.of_nat rank))%Z then Some (Z.to_nat d) else None.

Fixpoint to_dims (rank : nat) (l : list Z) : option (list nat) :=
  match l with
  | [] => Some []
  | d :: l' =>
      match to_dim rank d, to_dims rank l' with
      | Some n, Some ns => Some (n :: ns)
      | _, _ => None
      end
  end.

(** [assoc p dims vals]: the value paired with the first occurrence of axis
    [p] in [dims]. *)
Fixpoint assoc (p : nat) (dims vals : list nat) : nat :=
  match dims, vals with
  | d :: ds, v :: vs => if d =? p then v else assoc p ds vs
  | _, _ => 0
  end.

(** An index vector of the given rank holding [vals] at the axes [dims]. *)
Definition place (dims vals : list nat) (rank : nat) : list nat :=
  map (fun p => assoc p dims vals) (seq 0 rank).

(** The axes of an operand that are not listed in [used], ascending. *)
Definition free_dims (rank : nat) (used : list nat) : list nat :=
  List.filter (fun p => negb (memb p used)) (seq 0 rank).

(** Broadcasting of two shapes, numpy rules: the shorter shape is padded
    with leading ones; on each axis the sizes agree or one of them is 1. *)
Definition pad_shape (r : nat) (sh : list nat) : list nat :=
  repeat 1 (r - length sh) ++ sh.

Fixpoint broadcast_dims (a b : list nat) : option (list nat) :=
  match a, b with
  | [], [] => Some []
  | x :: a', y :: b' =>
      match broadcast_dims a' b' with
      | Some sh =>
          if x =? y then Some (x :: sh)
          else if x =? 1 then Some (y :: sh)
          else if y =? 1 then Some (x :: sh)
          else None
      | None => None
      end
  | _, _ => None
  end.

Definition broadcast_shapes (a b : list nat) : option (list nat) :=
  let r := Nat.max (length a) (length b) in
  broadcast_dims (pad_shape r a) (pad_shape r b).

(** The index an operand of shape [sh] is read at for the output index
    [idx]: leading axes the operand lacks are dropped, axes of size 1 are
    read at 0. *)
Fixpoint bcast_zip (sh idx : list nat) : list nat :=
  match sh, idx with
  | d :: sh', i :: idx' => (if d =? 1 then 0 else i) :: bcast_zip sh' idx'
  | _, _ => []
  end.

Definition bcast_index (sh idx : list nat) : list nat :=
  bcast_zip sh (skipn (length idx - length sh) idx).

(** [lax.GatherDimensionNumbers]. *)
Record GatherDimensionNumbers : Type := {
  offset_dims : list Z;
  collapsed_slice_dims : list Z;
  start_index_map : list Z
}.

(** The start index along operand axis [d]: the component of the index
    vector mapped to [d], or 0. *)
Fixpoint start_at (d : nat) (index_map : list nat) (start : list Z) : Z :=
  match index_map, start with
  | m :: ms, s :: ss => if m =? d then s else start_at d ms ss
  | _, _ => 0%Z
  end.

Definition clamp (lo hi z : Z) : Z := Z.max lo (Z.min z hi).

(** Arguments of [lax.conv_general_dilated]. *)
Inductive Padding : Type :=
| SAME
| VALID
| Explicit (pairs : list (Z * Z)).

Record ConvDimensionNumbers : Type := {
  lhs_spec : list Z;
  rhs_spec : list Z;
  out_spec : list Z
}.

(** ** The parameter store of the enclosing module *)

Definition PRNGKey : Type := Z.

(** An initializer is a pure function of a key, a shape and an optional
    dtype. *)
Definition initializer : Type :=
  PRNGKey -> list nat -> option DType -> result tensor.

Record store : Type := mkStore {
  params : gmap string tensor;
  rngs : string -> PRNGKey
}.

Definition M (A : Type) : Type := store -> result A * store.

Definition ret {A} (a : A) : M A := fun st => (Ok a, st).

Definition raise {A} (e : exn) : M A := fun st => (Raise e, st).

Definition bind {A B} (m : M A) (k : A -> M B) : M B :=
  fun st =>
    match m st with
    | (Ok a, st') => k a st'
    | (Raise e, st') => (Raise e, st')
    end.

Definition lift {A} (r : result A) : M A := fun st => (r, st).

Notation "x <- m ;; k" := (bind m (fun x => k))
  (at level 100, m at next level, right associativity).

(** Modelled from the spec: [Module.param] of [flax/nn/base.py], which is
    not part of the sources.  The spec gives it as a registration call
    taking a name, a shape and an initializer and returning an array,
    created through the initializer at first use and looked up by name
    afterwards. *)
Definition param (name : string) (sh : list nat) (init : initializer) : M tensor :=
  fun st =>
    match params st !! name with
    | Some t => (Ok t, st)
    | None =>
        match init (rngs st name) sh None with
        | Ok t => (Ok t, {| params := <[name := t]> (params st); rngs := rngs st |})
        | Raise e => (Raise e, st)
        end
    end.

(** ** [_normalize_axes] *)

Definition _normalize_axes (axes : list Z) (ndim : Z) : list Z :=
  map (fun ax => if (0 <=? ax)%Z then ax else (ndim + ax)%Z) axes.

(** ** Arguments of the layers *)

(** An argument given as one integer or as a tuple of integers. *)
Inductive int_or_tuple (A : Type) : Type :=
| One (a : A)
| Tuple (l : list A).
Arguments One {A} a.
Arguments Tuple {A} l.

Definition as_tuple {A} (x : int_or_tuple A) : list A :=
  match x with
  | One a => [a]
  | Tuple l => l
  end.

(** [str] of a tuple of integers. *)
Fixpoint py_str_items (l : list Z) : string :=
  match l with
  | [] => String.EmptyString
  | [x] => pretty x
  | x :: l' => pretty x +:+ ", " +:+ py_str_items l'
  end.

Definition py_str_tuple (l : list Z) : string :=
  match l with
  | [x] => "(" +:+ pretty x +:+ ",)"
  | _ => "(" +:+ py_str_items l +:+ ")"
  end.

(** Lines 72-76: the batch dimensions must be exactly [0 .. max_dim]. *)
Definition check_batch_dims (batch_dims : list Z) : result unit :=
  match batch_dims with
  | [] => Ok tt
  | _ :: _ =>
      let max_dim := onp_max batch_dims in
      if bool_decide (py_set batch_dims ≠ py_set (py_range (max_dim + 1)))
      then Raise (ValueError ("batch_dims " +:+ py_str_tuple batch_dims +:+
                              " must be consecutive leading dimensions starting from 0."))
      else Ok tt
  end.

(** ** The layers, over the framework's promotion and convolution *)

Section Framework.

(** The framework's dtype promotion, [jnp.promote_types]. *)
Variable promote_types : DType -> DType -> DType.

(** [jnp.expand_dims(a, axis)]. *)
Definition expand_dims (t : tensor) (ax : Z) : result tensor :=
  let r := Z.of_nat (ndim t) in
  let a := if (ax <? 0)%Z then (r + 1 + ax)%Z else ax in
  if ((0 <=? a) && (a <=? r))%Z then
    Ok {| shape := firstn (Z.to_nat a) (shape t) ++ 1 :: skipn (Z.to_nat a) (shape t);
          dtype := dtype t;
          data := data t |}
  else Raise (LaxError "expand_dims").

(** [jnp.reshape(a, newshape)]. *)
Definition reshape (t : tensor) (sh : list nat) : result tensor :=
  if numel sh =? length (data t) then
    Ok {| shape := sh; dtype := dtype t; data := data t |}
  else Raise (LaxError "reshape").

(** [jnp.concatenate(arrays, axis=0)]: the arrays agree on all axes but the
    first; in row-major order the data are appended. *)
Definition concatenate0 (ts : list tensor) : result tensor :=
  match ts with
  | [] => Raise (ValueError "Need at least one array to concatenate.")
  | t :: ts' =>
      match shape t with
      | [] => Raise (LaxError "concatenate")
      | _ :: rest =>
          if forallb (fun u => match shape u with
                               | [] => false
                               | _ :: rest' => shape_eqb rest rest'
                               end) ts'
          then Ok {| shape := fold_right Nat.add 0 (map (fun u => dim u 0) ts) :: rest;
                     dtype := fold_left promote_types (map dtype ts') (dtype t);
                     data := concat (map data ts) |}
          else Raise (LaxError "concatenate")
      end
  end.

(** [a + b] on arrays. *)
Definition add (a b : tensor) : result tensor :=
  match broadcast_shapes (shape a) (shape b) with
  | Some sh =>
      Ok (build (promote_types (dtype a) (dtype b)) sh
            (fun idx => (get a (bcast_index (shape a) idx)
                         + get b (bcast_index (shape b) idx))%Z))
  | None => Raise (LaxError "add")
  end.

(** [lax.dot_general(lhs, rhs, ((lhs_contract, rhs_contract),
    (lhs_batch, rhs_batch)), precision)].  The output axes are the batch
    axes, then the free axes of [lhs], then the free axes of [rhs]; an
    output element is the sum over the contracted axes of the products. *)
Definition dot_general (lhs rhs : tensor)
    (dn : (list Z * list Z) * (list Z * list Z))
    (precision : option Precision) : result tensor :=
  let '((lhs_contract, rhs_contract), (lhs_batch, rhs_batch)) := dn in
  match to_dims (ndim lhs) lhs_contract, to_dims (ndim rhs) rhs_contract,
        to_dims (ndim lhs) lhs_batch, to_dims (ndim rhs) rhs_batch with
  | Some lc, Some rc, Some lb, Some rb =>
      if nodupb (lb ++ lc) && nodupb (rb ++ rc)
         && shape_eqb (map (dim lhs) lc) (map (dim rhs) rc)
         && shape_eqb (map (dim lhs) lb) (map (dim rhs) rb)
      then
        let lfree := free_dims (ndim lhs) (lb ++ lc) in
        let rfree := free_dims (ndim rhs) (rb ++ rc) in
        let nb := length lb in
        let nl := length lfree in
        Ok (build (promote_types (dtype lhs) (dtype rhs))
              (map (dim lhs) lb ++ map (dim lhs) lfree ++ map (dim rhs) rfree)
              (fun o =>
                 let b := firstn nb o in
                 let i := firstn nl (skipn nb o) in
                 let j := skipn (nb + nl) o in
                 sumZ (map (fun k =>
                   (get lhs (place (lb ++ lfree ++ lc) (b ++ i ++ k) (ndim lhs))
                    * get rhs (place (rb ++ rfree ++ rc) (b ++ j ++ k) (ndim rhs)))%Z)
                   (indices (map (dim lhs) lc)))))
      else Raise (LaxError "dot_general")
  | _, _, _, _ => Raise (LaxError "dot_general")
  end.

(** [lax.gather(operand, start_indices, dimension_numbers, slice_sizes)];
    the index vectors lie along the last axis of [start_indices], and a
    start index is clamped so that the slice stays inside the operand. *)
Definition gather (operand start_indices : tensor)
    (dn : GatherDimensionNumbers) (slice_sizes : list nat) : result tensor :=
  let orank := ndim operand in
  match rev (shape start_indices) with
  | [] => Raise (LaxError "gather")
  | kdim :: rbatch =>
      let batch_shape := rev rbatch in
      let out_rank := length batch_shape + length (offset_dims dn) in
      match to_dims out_rank (offset_dims dn),
            to_dims orank (collapsed_slice_dims dn),
            to_dims orank (start_index_map dn) with
      | Some offs, Some coll, Some smap =>
          let kept := free_dims orank coll in
          if (length slice_sizes =? orank) && (length smap =? kdim)
             && (length offs =? length kept) && ascendingb offs && nodupb coll
             && forallb (fun d => nth d slice_sizes 0 <=? dim operand d) (seq 0 orank)
             && forallb (fun d => nth d slice_sizes 0 <=? 1) coll
          then
            let batch_pos := free_dims out_rank offs in
            let offset_shape := map (fun d => nth d slice_sizes 0) kept in
            Ok (build (dtype operand)
                  (place (offs ++ batch_pos) (offset_shape ++ batch_shape) out_rank)
                  (fun o =>
                     let f := map (fun p => nth p o 0) offs in
                     let g := map (fun p => nth p o 0) batch_pos in
                     let start := map (fun c => get start_indices (g ++ [c])) (seq 0 kdim) in
                     get operand
                       (map (fun d =>
                          Z.to_nat (clamp 0 (Z.of_nat (dim operand d - nth d slice_sizes 0))
                                      (start_at d smap start))
                          + assoc d kept f)
                          (seq 0 orank))))
          else Raise (LaxError "gather")
      | _, _, _ => Raise (LaxError "gather")
      end
  end.

(** The framework's convolution, [lax.conv_general_dilated]; the layers
    only pass their arguments on to it. *)
Variable conv_general_dilated :
  tensor -> tensor -> list Z -> Padding -> option (list Z) -> option (list Z) ->
  ConvDimensionNumbers -> nat -> option Precision -> result tensor.

(** ** [DenseGeneral] *)

Definition default_dtype (dt : option DType) : DType :=
  match dt with
  | Some d => d
  | None => float32
  end.

(** Lines 84-90; the variables the closure captures are arguments. *)
Definition kernel_init_wrap (kernel_init : initializer)
    (n_batch_dims n_axis n_features : nat) : initializer :=
  fun rng shape dt =>
    let dtype := default_dtype dt in
    let size_batch_dims :=
      onp_prod_int32 (py_slice shape None (Some (Z.of_nat n_batch_dims))) in
    let flat_shape :=
      [onp_prod (py_slice shape (Some (Z.of_nat n_batch_dims))
                   (Some (Z.of_nat n_axis + Z.of_nat n_batch_dims)%Z));
       onp_prod (py_slice shape (Some (- Z.of_nat n_features)%Z) None)] in
    rbind (rmapM (fun _ => kernel_init rng flat_shape (Some dtype))
             (py_range size_batch_dims))
      (fun slices => rbind (concatenate0 slices) (fun kernel => reshape kernel shape)).

(** Lines 103-108. *)
Definition bias_init_wrap (bias_init : initializer)
    (n_batch_dims n_features : nat) : initializer :=
  fun rng shape dt =>
    let dtype := default_dtype dt in
    let size_batch_dims :=
      onp_prod_int32 (py_slice shape None (Some (Z.of_nat n_batch_dims))) in
    let flat_shape :=
      [onp_prod (py_slice shape (Some (- Z.of_nat n_features)%Z) None)] in
    rbind (rmapM (fun _ => bias_init rng flat_shape (Some dtype))
             (py_range size_batch_dims))
      (fun slices => rbind (concatenate0 slices) (fun bias => reshape bias shape)).

(** Lines 112-117: the bias is reshaped for broadcasting and added. *)
Definition bias_expand_dims (ndim : Z) (axis batch_dims : list Z) : list Z :=
  py_sorted (py_set (py_range ndim) ∖ py_set axis ∖ py_set batch_dims).

Definition DenseGeneral_apply (inputs : tensor)
    (features : int_or_tuple nat) (axis batch_dims : int_or_tuple Z)
    (bias : bool) (kernel_init bias_init : initializer)
    (precision : option Precision) : M tensor :=
  let features := as_tuple features in
  let axis := as_tuple axis in
  let batch_dims := as_tuple batch_dims in
  _ <- lift (check_batch_dims batch_dims) ;;
  let ndim := Z.of_nat (ndim inputs) in
  let n_batch_dims := length batch_dims in
  let axis := _normalize_axes axis ndim in
  let batch_dims := _normalize_axes batch_dims ndim in
  let n_axis := length axis in
  let n_features := length features in
  batch_shape <- lift (rmapM (py_index (shape inputs)) batch_dims) ;;
  axis_shape <- lift (rmapM (py_index (shape inputs)) axis) ;;
  let kernel_shape := axis_shape ++ features in
  kernel <- param "kernel" (batch_shape ++ kernel_shape)
              (kernel_init_wrap kernel_init n_batch_dims n_axis n_features) ;;
  let batch_ind := py_range (Z.of_nat n_batch_dims) in
  let contract_ind :=
    py_range2 (Z.of_nat n_batch_dims) (Z.of_nat n_axis + Z.of_nat n_batch_dims) in
  out <- lift (dot_general inputs kernel
                 ((axis, contract_ind), (batch_dims, batch_ind)) precision) ;;
  if bias then
    bias <- param "bias" (batch_shape ++ features)
              (bias_init_wrap bias_init n_batch_dims n_features) ;;
    bias <- lift (rfoldM expand_dims (bias_expand_dims ndim axis batch_dims) bias) ;;
    lift (add out bias)
  else ret out.

(** ** [Dense] *)

Definition Dense_apply (inputs : tensor) (features : nat) (bias : bool)
    (dtype : DType) (precision : option Precision)
    (kernel_init bias_init : initializer) : M tensor :=
  let inputs := asarray inputs dtype in
  last_dim <- lift (py_index (shape inputs) (-1)) ;;
  kernel <- param "kernel" [last_dim; features] kernel_init ;;
  let kernel := asarray kernel dtype in
  y <- lift (dot_general inputs kernel
               (([(Z.of_nat (ndim inputs) - 1)%Z], [0%Z]), ([], [])) precision) ;;
  if bias then
    b <- param "bias" [features] bias_init ;;
    lift (add y b)
  else ret y.

(** ** [Conv] *)

Definition _conv_dimension_numbers (input_shape : list nat) : ConvDimensionNumbers :=
  let ndim := Z.of_nat (length input_shape) in
  let lhs := [0; ndim - 1]%Z ++ py_range2 1 (ndim - 1) in
  let rhs := [ndim - 1; ndim - 2]%Z ++ py_range2 0 (ndim - 2) in
  {| lhs_spec := lhs; rhs_spec := rhs; out_spec := lhs |}.

Definition Conv_apply (inputs : tensor) (features : nat) (kernel_size : list nat)
    (strides : option (list Z)) (padding : Padding)
    (lhs_dilation rhs_dilation : option (list Z))
    (feature_group_count : nat) (bias : bool) (dtype : DType)
    (precision : option Precision)
    (kernel_init bias_init : initializer) : M tensor :=
  let inputs := asarray inputs dtype in
  let strides :=
    match strides with
    | Some s => s
    | None => repeat 1%Z (ndim inputs - 2)
    end in
  in_features <- lift (py_index (shape inputs) (-1)) ;;
  if feature_group_count =? 0 then raise ZeroDivisionError
  else if negb (in_features mod feature_group_count =? 0) then raise AssertionError
  else
    let kernel_shape := kernel_size ++ [in_features / feature_group_count; features] in
    kernel <- param "kernel" kernel_shape kernel_init ;;
    let kernel := asarray kernel dtype in
    let dimension_numbers := _conv_dimension_numbers (shape inputs) in
    y <- lift (conv_general_dilated inputs kernel strides padding
                 lhs_dilation rhs_dilation dimension_numbers
                 feature_group_count precision) ;;
    if bias then
      b <- param "bias" [features] bias_init ;;
      lift (add y (asarray b dtype))
    else ret y.

(** ** [Embed] *)

Definition Embed_apply (inputs : tensor) (num_embeddings features : nat)
    (embedding_init : initializer) : M tensor :=
  if negb (bool_decide (dtype inputs ∈ [int32; int64; uint32; uint64])) then
    raise (ValueError "Input type must be an integer or unsigned integer.")
  else
    embedding <- param "embedding" [num_embeddings; features] embedding_init ;;
    let dims := {| offset_dims := [(Z.of_nat (ndim inputs) - 1)%Z];
                   collapsed_slice_dims := [0%Z];
                   start_index_map := [0%Z] |} in
    lift (gather embedding inputs dims [1; features]).

(** ** Vocabulary of the statements *)

(** The elements of a tuple are exactly [0 .. max]. *)
Definition leading_dims (batch_dims : list Z) : Prop :=
  forall x : Z, x ∈ batch_dims <-> (0 <= x <= onp_max batch_dims)%Z.

(** The message of the ValueError of lines 75-76. *)
Definition batch_dims_message (batch_dims : list Z) : string :=
  "batch_dims " +:+ py_str_tuple batch_dims +:+
  " must be consecutive leading dimensions starting from 0.".

(** The dtypes [Embed] accepts, line 267. *)
Definition embed_dtypes : list DType := [int32; int64; uint32; uint64].

(** [c] is evenly divisible by [g]: the quotient exists and leaves no
    remainder. *)
Definition evenly_divisible (c g : nat) : bool :=
  negb (g =? 0) && (c mod g =? 0).

(** Row [i] of a two-dimensional array. *)
Definition row (t : tensor) (i : nat) : list Z :=
  map (fun j => get t [i; j]) (seq 0 (dim t 1)).

(** [jnp.eye(n, dtype=dt)]. *)
Definition eye (n : nat) (dt : DType) : tensor :=
  build dt [n; n] (fun idx => if nth 0 idx 0 =? nth 1 idx 0 then 1%Z else 0%Z).



(** A call creates parameters under the names [names] at most and changes
    nothing else of the store: the parameters it finds are there afterwards
    with their values, and the keys of the module are the same. *)
Definition creates_only {A} (names : gset string) (m : M A) : Prop :=
  forall (st st' : store) (r : result A),
    m st = (r, st') ->
    params st ⊆ params st'
    /\ dom (params st') ⊆ dom (params st) ∪ names
    /\ rngs st' = rngs st.

(** A call [m'] made after a call [m] that returned, on a store that holds
    at least the parameters [m] left, returns what [m] returned and leaves
    that store as it is. *)
Definition reruns_as {A} (m m' : M A) : Prop :=
  forall (st st' : store) (y : A),
    m st = (Ok y, st') ->
    forall s2 : store, params st' ⊆ params s2 -> m' s2 = (Ok y, s2).

(** ** Sample arrays, initializers and stores *)

(** A total order on dtypes, standing in for the promotion lattice of the
    framework when the layers are run on the samples: the promotion of two
    dtypes is the later one. *)
Definition dtype_rank (d : DType) : nat :=
  match d with
  | bool_ => 0 | uint8 => 1 | int8 => 2 | uint16 => 3 | int16 => 4
  | uint32 => 5 | int32 => 6 | uint64 => 7 | int64 => 8
  | bfloat16 => 9 | float16 => 10 | float32 => 11 | float64 => 12
  | complex64 => 13 | complex128 => 14
  end.

Definition promote_widest (a b : DType) : DType :=
  if dtype_rank a <? dtype_rank b then b else a.

(** A stand-in for the convolution when [Conv] is run on the samples: zeros
    in the dtype of the input, with the channel axis of the input replaced
    by the output channels of the kernel. *)
Definition conv_zeros (lhs rhs : tensor) (strides : list Z) (padding : Padding)
    (lhs_dilation rhs_dilation : option (list Z)) (dn : ConvDimensionNumbers)
    (g : nat) (precision : option Precision) : result tensor :=
  Ok (build (dtype lhs)
        (List.removelast (shape lhs) ++ [List.last (shape rhs) 0])
        (fun _ => 0%Z)).

(** Zero-fill and one-fill initializers. *)
Definition zeros : initializer :=
  fun _ sh dt => Ok (build (default_dtype dt) sh (fun _ => 0%Z)).

Definition ones : initializer :=
  fun _ sh dt => Ok (build (default_dtype dt) sh (fun _ => 1%Z)).

Definition empty_store : store := {| params := ∅; rngs := fun _ => 0%Z |}.

Definition x23 : tensor :=
  {| shape := [2; 3]; dtype := float32; data := [1; 2; 3; 4; 5; 6]%Z |}.

Definition x223 : tensor :=
  {| shape := [2; 2; 3]; dtype := float32;
     data := [1; 2; 3; 4; 5; 6; 7; 8; 9; 10; 11; 12]%Z |}.

Definition k32 : tensor :=
  {| shape := [3; 2]; dtype := float32; data := [1; 0; 0; 1; 1; 1]%Z |}.

Definition b2 : tensor :=
  {| shape := [2]; dtype := float64; data := [10; 20]%Z |}.

Definition dense_store : store :=
  {| params := <["kernel" := k32]> (<["bias" := b2]> ∅); rngs := fun _ => 0%Z |}.

Definition eye_store : store :=
  {| params := <["kernel" := eye 3 float32]> ∅; rngs := fun _ => 0%Z |}.

Definition table42 : tensor :=
  {| shape := [4; 2]; dtype := float32; data := [1; 2; 3; 4; 5; 6; 7; 8]%Z |}.

Definition ids31 : tensor :=
  {| shape := [3; 1]; dtype := int32; data := [2; 0; 3]%Z |}.

Definition embed_store : store :=
  {| params := <["embedding" := table42]> ∅; rngs := fun _ => 0%Z |}.

(** The parameters [DenseGeneral] creates for [x223] with
    [batch_dims=(0,)], two features and the initializers above. *)
Definition batched_store : store :=
  {| params :=
       <["bias" := {| shape := [2; 2]; dtype := float32; data := [0; 0; 0; 0]%Z |}]>
         (<["kernel" := {| shape := [2; 3; 2]; dtype := float32;
                           data := [1; 1; 1; 1; 1; 1; 1; 1; 1; 1; 1; 1]%Z |}]> ∅);
     rngs := fun _ => 0%Z |}.

Definition batched_output : tensor :=
  {| shape := [2; 2; 2]; dtype := float32;
     data := [6; 6; 15; 15; 24; 24; 33; 33]%Z |}.

(** The parameters [Conv] creates for [x23] with three groups. *)
Definition conv_store : store :=
  {| params :=
       <["bias" := {| shape := [2]; dtype := float32; data := [0; 0]%Z |}]>
         (<["kernel" := {| shape := [3; 1; 2]; dtype := float32;
                           data := [1; 1; 1; 1; 1; 1]%Z |}]> ∅);
     rngs := fun _ => 0%Z |}.

Definition ids221 : tensor :=
  {| shape := [2; 2; 1]; dtype := int32; data := [2; 0; 3; 1]%Z |}.








(** * Properties *)

(** ** Index vectors and row-major layout *)

Lemma length_indices (sh : list nat) : length (indices sh) = numel sh.
Proof.
  induction sh as [|d sh IH]; simpl; [reflexivity|].
  generalize 0 as a. induction d as [|d IHd]; intros a; simpl; [reflexivity|].
  rewrite List.length_app, List.length_map, IH, IHd. reflexivity.
Qed.

Lemma in_indices (sh idx : list nat) : In idx (indices sh) <-> in_bounds sh idx.
Proof.
  unfold in_bounds. revert idx. induction sh as [|d sh IH]; intros idx; simpl.
  - split.
    + intros [<-|[]]. constructor.
    + intros H. inversion H. now left.
  - rewrite in_flat_map. split.
    + intros (i & Hi & Hin). apply in_map_iff in Hin as (idx' & <- & Hin').
      apply in_seq in Hi. constructor; [lia|]. now apply IH.
    + intros H. inversion H as [|i d' idx' sh' Hlt Hrest]; subst.
      exists i. split; [apply in_seq; lia|].
      apply in_map_iff. exists idx'. split; [reflexivity|]. now apply IH.
Qed.

Lemma in_bounds_length (sh idx : list nat) :
  in_bounds sh idx -> length idx = length sh.
Proof. unfold in_bounds. induction 1; simpl; congruence. Qed.

Lemma ravel_lt (sh idx : list nat) : in_bounds sh idx -> ravel sh idx < numel sh.
Proof.
  unfold in_bounds. intros H. induction H as [|i d idx sh Hlt _ IH]; simpl; [lia|].
  nia.
Qed.

(** A concatenation of [d] chunks of one length [m] is read chunk by chunk. *)
Lemma nth_error_chunks {A} (g : nat -> list A) (m : nat) :
  (forall i, length (g i) = m) ->
  forall d a i r, i < d -> r < m ->
    nth_error (flat_map g (seq a d)) (i * m + r) = nth_error (g (a + i)) r.
Proof.
  intros Hlen. induction d as [|d IH]; intros a i r Hi Hr; [lia|].
  simpl. destruct i as [|i].
  - rewrite nth_error_app1 by (rewrite Hlen; lia).
    now rewrite Nat.add_0_r.
  - rewrite nth_error_app2 by (rewrite Hlen; simpl; lia).
    rewrite Hlen. replace (S i * m + r - m) with (i * m + r) by (simpl; lia).
    rewrite IH by lia. f_equal. f_equal. lia.
Qed.

Lemma nth_error_indices (sh idx : list nat) :
  in_bounds sh idx -> nth_error (indices sh) (ravel sh idx) = Some idx.
Proof.
  unfold in_bounds. intros H. induction H as [|i d idx sh Hlt Hb IH]; [reflexivity|].
  simpl. rewrite (nth_error_chunks _ (numel sh)).
  - simpl. rewrite nth_error_map, IH. reflexivity.
  - intros j. now rewrite List.length_map, length_indices.
  - exact Hlt.
  - now apply ravel_lt.
Qed.

(** Reading an array built from a function gives the function back. *)
Lemma get_build (dt : DType) (sh : list nat) (f : list nat -> Z) (idx : list nat) :
  in_bounds sh idx -> get (build dt sh f) idx = f idx.
Proof.
  intros H. unfold get, build; simpl.
  apply nth_error_nth. rewrite nth_error_map, nth_error_indices by exact H.
  reflexivity.
Qed.

Lemma build_ext (dt : DType) (sh : list nat) (f g : list nat -> Z) :
  (forall idx, in_bounds sh idx -> f idx = g idx) -> build dt sh f = build dt sh g.
Proof.
  intros H. unfold build. f_equal. apply map_ext_in.
  intros idx Hin. apply H. now apply in_indices.
Qed.

Lemma wf_build (dt : DType) (sh : list nat) (f : list nat -> Z) :
  wf_tensor (build dt sh f).
Proof. unfold wf_tensor, build; simpl. now rewrite List.length_map, length_indices. Qed.

Lemma map_seq_offset {A} (f : nat -> A) (n : nat) :
  forall s, map (fun r => f (s + r)) (seq 0 n) = map f (seq s n).
Proof.
  induction n as [|n IH]; intros s; simpl; [reflexivity|].
  rewrite Nat.add_0_r. f_equal.
  rewrite <- seq_shift, map_map, <- IH. apply map_ext.
  intros r. f_equal. lia.
Qed.

(** The elements of a list, read through the index vectors of a shape in
    row-major order, come in the order of the list. *)
Lemma map_ravel_indices {A} (d0 : A) (sh : list nat) :
  forall (l : list A) (off : nat),
    map (fun idx => nth (off + ravel sh idx) l d0) (indices sh)
    = map (fun r => nth (off + r) l d0) (seq 0 (numel sh)).
Proof.
  induction sh as [|d sh IH]; intros l off; simpl; [reflexivity|].
  rewrite flat_map_concat_map, concat_map, map_map.
  transitivity (concat (map (fun i =>
      map (fun r => nth (off + i * numel sh + r) l d0) (seq 0 (numel sh))) (seq 0 d))).
  - f_equal. apply map_ext. intros i. rewrite map_map.
    rewrite <- IH. apply map_ext. intros idx. f_equal. lia.
  - generalize (numel sh) as m. intros m. clear IH.
    assert (G : forall a, concat (map (fun i =>
        map (fun r => nth (off + i * m + r) l d0) (seq 0 m)) (seq a d))
        = map (fun r => nth (off + r) l d0) (seq (a * m) (d * m))).
    { induction d as [|d IHd]; intros a; simpl; [reflexivity|].
      rewrite IHd. rewrite seq_app, map_app. f_equal.
      - rewrite <- (map_seq_offset (fun r => nth (off + r) l d0) m (a * m)).
        apply map_ext. intros r. f_equal. lia.
      - f_equal. f_equal. lia. }
    apply G.
Qed.

(** An array with as many elements as its shape asks for is the array
    built from its own elements. *)
Lemma build_get (t : tensor) :
  wf_tensor t -> build (dtype t) (shape t) (get t) = t.
Proof.
  unfold wf_tensor. intros H. destruct t as [sh dt l]; simpl in *.
  unfold build, get; simpl. f_equal.
  change (map (fun idx => nth (ravel sh idx) l 0%Z) (indices sh))
    with (map (fun idx => nth (0 + ravel sh idx) l 0%Z) (indices sh)).
  rewrite (map_ravel_indices 0%Z sh l 0). simpl.
  rewrite <- H. clear H. induction l as [|x l IH]; simpl; [reflexivity|].
  f_equal. rewrite <- seq_shift, map_map. exact IH.
Qed.

(** ** Validation of the batch dimensions *)

Lemma py_set_range_eq (l : list Z) (n : Z) :
  py_set l = py_set (py_range n) <-> (forall x : Z, x ∈ l <-> (0 <= x < n)%Z).
Proof.
  unfold py_set, py_range. rewrite set_eq. split; intros H x.
  - specialize (H x). rewrite !elem_of_list_to_set, elem_of_seqZ in H.
    rewrite H. lia.
  - rewrite !elem_of_list_to_set, elem_of_seqZ, H. lia.
Qed.

Lemma check_batch_dims_ok (batch_dims : list Z) :
  check_batch_dims batch_dims = Ok tt <-> batch_dims = [] \/ leading_dims batch_dims.
Proof.
  unfold check_batch_dims, leading_dims. destruct batch_dims as [|b l].
  - split; [now left | reflexivity].
  - case_bool_decide as Hset.
    + split; [discriminate|]. intros [Hnil|Hlead]; [discriminate|].
      exfalso. apply Hset. apply py_set_range_eq. intros x. rewrite Hlead. lia.
    + split; [|reflexivity]. intros _. right. intros x.
      rewrite py_set_range_eq in Hset.
      rewrite Hset. lia.
Qed.

(** C2. A non-empty [batch_dims] whose elements are not exactly
    [0 .. max(batch_dims)] makes [DenseGeneral] raise the ValueError of
    lines 75-76, and the parameter store is left as it was: no parameter
    has been created.  A [batch_dims] whose elements are exactly that set
    passes the validation. *)
Theorem DenseGeneral_batch_dims_validation :
  forall (inputs : tensor) (features : int_or_tuple nat)
         (axis batch_dims : int_or_tuple Z) (bias : bool)
         (kernel_init bias_init : initializer) (precision : option Precision)
         (st : store),
    as_tuple batch_dims <> [] ->
    (~ leading_dims (as_tuple batch_dims) ->
       DenseGeneral_apply inputs features axis batch_dims bias
         kernel_init bias_init precision st
       = (Raise (ValueError (batch_dims_message (as_tuple batch_dims))), st))
    /\ (leading_dims (as_tuple batch_dims) ->
         check_batch_dims (as_tuple batch_dims) = Ok tt).
Proof.
  intros inputs features axis batch_dims bias ki bi prec st Hne. split.
  - intros Hbad. unfold DenseGeneral_apply, bind, lift.
    destruct (check_batch_dims (as_tuple batch_dims)) as [[]|e] eqn:Hc.
    + apply check_batch_dims_ok in Hc as [Hnil|Hlead]; contradiction.
    + f_equal. f_equal. unfold check_batch_dims in Hc.
      destruct (as_tuple batch_dims) as [|b l]; [contradiction|].
      case_bool_decide; [|discriminate]. now inversion Hc.
  - intros Hlead. apply check_batch_dims_ok. now right.
Qed.

(** ** The parameter store *)

Lemma bind_lift_Ok {A B} (a : A) (k : A -> M B) (st : store) :
  bind (lift (Ok a)) k st = k a st.
Proof. reflexivity. Qed.

Lemma bind_lift_Raise {A B} (e : exn) (k : A -> M B) (st : store) :
  bind (lift (Raise e)) k st = (Raise e, st).
Proof. reflexivity. Qed.

Lemma bind_Ok_inv {A B} (m : M A) (k : A -> M B) (st st' : store) (b : B) :
  bind m k st = (Ok b, st') ->
  exists a st1, m st = (Ok a, st1) /\ k a st1 = (Ok b, st').
Proof.
  unfold bind. destruct (m st) as [[a|e] st1]; [|discriminate].
  intros H. now exists a, st1.
Qed.

Lemma lift_Ok_inv {A} (r : result A) (st st' : store) (a : A) :
  lift r st = (Ok a, st') -> r = Ok a /\ st' = st.
Proof. unfold lift. now intros [= -> ->]. Qed.

Lemma param_stored (name : string) (sh : list nat) (init : initializer)
    (st st' : store) (t : tensor) :
  param name sh init st = (Ok t, st') -> params st' !! name = Some t.
Proof.
  unfold param. destruct (params st !! name) as [u|] eqn:Hl.
  - intros [= <- <-]. exact Hl.
  - destruct (init (rngs st name) sh None) as [u|e]; intros [= <- <-]; simpl.
    apply lookup_insert_eq.
Qed.

Lemma param_lookup (name : string) (sh : list nat) (init : initializer)
    (st : store) (t : tensor) :
  params st !! name = Some t -> param name sh init st = (Ok t, st).
Proof. unfold param. now intros ->. Qed.


(** ** The dtype check of [Embed] *)

(** C4. [Embed] raises its input-type error, before anything else is done,
    exactly when the dtype of the input is none of int32, int64, uint32,
    uint64; for these four dtypes the check raises nothing and the call goes
    on to the embedding parameter and the gather. *)
Theorem Embed_dtype_check :
  forall (inputs : tensor) (num_embeddings features : nat)
         (embedding_init : initializer) (st : store),
    (dtype inputs ∉ embed_dtypes ->
       Embed_apply inputs num_embeddings features embedding_init st
       = (Raise (ValueError "Input type must be an integer or unsigned integer."), st))
    /\ (dtype inputs ∈ embed_dtypes ->
         Embed_apply inputs num_embeddings features embedding_init st
         = (embedding <- param "embedding" [num_embeddings; features] embedding_init ;;
            lift (gather embedding inputs
                    {| offset_dims := [(Z.of_nat (ndim inputs) - 1)%Z];
                       collapsed_slice_dims := [0%Z];
                       start_index_map := [0%Z] |}
                    [1; features])) st).
Proof.
  intros inputs n f init st. unfold Embed_apply, embed_dtypes. split; intros H.
  - rewrite bool_decide_eq_false_2 by exact H. reflexivity.
  - rewrite bool_decide_eq_true_2 by exact H. reflexivity.
Qed.

(** ** The group-count check of [Conv] *)

(** C5. With [c] the size of the last axis of the input: when [c] is not
    evenly divisible by [feature_group_count], [Conv] fails at line 218 and
    leaves the parameter store as it was (the assertion fails; for a group
    count of 0 the remainder itself raises ZeroDivisionError).  When [c] is
    evenly divisible the check raises nothing and the call goes on to the
    kernel parameter and the convolution. *)
Theorem Conv_feature_group_check :
  forall (inputs : tensor) (features : nat) (kernel_size : list nat)
         (strides : option (list Z)) (padding : Padding)
         (lhs_dilation rhs_dilation : option (list Z))
         (feature_group_count : nat) (bias : bool) (dt : DType)
         (precision : option Precision) (kernel_init bias_init : initializer)
         (st : store) (c : nat),
    py_index (shape inputs) (-1) = Ok c ->
    (evenly_divisible c feature_group_count = false ->
       Conv_apply inputs features kernel_size strides padding lhs_dilation
         rhs_dilation feature_group_count bias dt precision kernel_init bias_init st
       = (Raise (if feature_group_count =? 0 then ZeroDivisionError
                 else AssertionError), st))
    /\ (evenly_divisible c feature_group_count = true ->
         Conv_apply inputs features kernel_size strides padding lhs_dilation
           rhs_dilation feature_group_count bias dt precision kernel_init bias_init st
         = (kernel <- param "kernel"
                        (kernel_size ++ [c / feature_group_count; features])
                        kernel_init ;;
            y <- lift (conv_general_dilated (asarray inputs dt) (asarray kernel dt)
                         (match strides with
                          | Some s => s
                          | None => repeat 1%Z (ndim inputs - 2)
                          end)
                         padding lhs_dilation rhs_dilation
                         (_conv_dimension_numbers (shape inputs))
                         feature_group_count precision) ;;
            if bias then
              b <- param "bias" [features] bias_init ;;
              lift (add y (asarray b dt))
            else ret y) st).
Proof.
  intros inputs features ks strides padding ld rd g bias dt prec ki bi st c Hc.
  unfold Conv_apply, evenly_divisible. cbn [asarray shape].
  rewrite Hc, bind_lift_Ok.
  destruct (g =? 0) eqn:Hg; cbn [negb andb].
  - split; [reflexivity | discriminate].
  - destruct (c mod g =? 0) eqn:Hm; cbn [negb]; split;
      try discriminate; reflexivity.
Qed.

(** ** Dtypes of the outputs *)

Lemma dtype_dot_general (lhs rhs : tensor) dn (precision : option Precision)
    (y : tensor) :
  dot_general lhs rhs dn precision = Ok y ->
  dtype y = promote_types (dtype lhs) (dtype rhs).
Proof.
  unfold dot_general. destruct dn as [[lc rc] [lb rb]].
  repeat match goal with
         | |- context [match ?x with _ => _ end] => destruct x; try discriminate
         end.
  now intros [= <-].
Qed.

Lemma dtype_add (a b y : tensor) :
  add a b = Ok y -> dtype y = promote_types (dtype a) (dtype b).
Proof.
  unfold add. destruct (broadcast_shapes (shape a) (shape b)); [|discriminate].
  now intros [= <-].
Qed.

(** The promotion of a dtype with itself is that dtype. *)
Hypothesis promote_types_idem : forall d : DType, promote_types d d = d.

(** [lax.conv_general_dilated] on operands of one dtype gives that dtype. *)
Hypothesis conv_general_dilated_dtype :
  forall lhs rhs strides padding lhs_dilation rhs_dilation dn g precision y,
    dtype lhs = dtype rhs ->
    conv_general_dilated lhs rhs strides padding lhs_dilation rhs_dilation
      dn g precision = Ok y ->
    dtype y = dtype lhs.

(** C10. [Dense] casts the inputs and the kernel to [dtype] and adds the
    bias parameter as it is stored: the dtype of the output is the promotion
    of [dtype] with the dtype of the bias parameter, whatever that is.
    [Conv] casts the bias to [dtype] before adding: its output has dtype
    [dtype]. *)
Theorem Dense_bias_dtype_promotion :
  forall (inputs : tensor) (features : nat) (dt : DType)
         (precision : option Precision) (kernel_init bias_init : initializer)
         (kernel_size : list nat) (strides : option (list Z)) (padding : Padding)
         (lhs_dilation rhs_dilation : option (list Z)) (feature_group_count : nat)
         (st : store),
    (forall (y : tensor) (st' : store),
       Dense_apply inputs features true dt precision kernel_init bias_init st
       = (Ok y, st') ->
       exists b, params st' !! "bias" = Some b
                 /\ dtype y = promote_types dt (dtype b))
    /\ (forall (y : tensor) (st' : store),
         Conv_apply inputs features kernel_size strides padding lhs_dilation
           rhs_dilation feature_group_count true dt precision kernel_init
           bias_init st = (Ok y, st') ->
         dtype y = dt).
Proof using promote_types_idem conv_general_dilated_dtype.
  intros inputs features dt prec ki bi ks strides padding ld rd g st. split.
  - intros y st'. unfold Dense_apply. intros H.
    apply bind_Ok_inv in H as (n & s1 & _ & H).
    apply bind_Ok_inv in H as (k & s2 & _ & H).
    apply bind_Ok_inv in H as (y0 & s3 & Hdot & H).
    apply bind_Ok_inv in H as (b & s4 & Hb & H).
    apply lift_Ok_inv in Hdot as [Hdot ->].
    apply lift_Ok_inv in H as [Hadd ->].
    exists b. split; [eapply param_stored; exact Hb|].
    rewrite (dtype_add _ _ _ Hadd), (dtype_dot_general _ _ _ _ _ Hdot).
    simpl. now rewrite promote_types_idem.
  - intros y st'. unfold Conv_apply. intros H.
    apply bind_Ok_inv in H as (n & s1 & _ & H).
    destruct (g =? 0); [discriminate|].
    destruct (negb (n mod g =? 0)); [discriminate|].
    apply bind_Ok_inv in H as (k & s2 & _ & H).
    apply bind_Ok_inv in H as (y0 & s3 & Hconv & H).
    apply bind_Ok_inv in H as (b & s4 & Hb & H).
    apply lift_Ok_inv in Hconv as [Hconv ->].
    apply lift_Ok_inv in H as [Hadd ->].
    rewrite (dtype_add _ _ _ Hadd).
    apply conv_general_dilated_dtype in Hconv; [|reflexivity].
    rewrite Hconv. simpl. apply promote_types_idem.
Qed.

(** ** The lookup of [Embed] *)

(** C3. For an integer input of shape [(B, 1)] with every entry in
    [0 .. num_embeddings - 1] and an embedding table of shape
    [(num_embeddings, features)], [Embed] returns an array of shape
    [(B, features)] whose row [i] is the row of the table at position
    [inputs[i, 0]]. *)
Theorem Embed_rows :
  forall (inputs table : tensor) (num_embeddings features B : nat)
         (embedding_init : initializer) (st st' : store),
    dtype inputs ∈ embed_dtypes ->
    shape inputs = [B; 1] ->
    param "embedding" [num_embeddings; features] embedding_init st = (Ok table, st') ->
    shape table = [num_embeddings; features] ->
    0 < num_embeddings ->
    (forall i, i < B -> (0 <= get inputs [i; 0%nat] < Z.of_nat num_embeddings)%Z) ->
    exists out,
      Embed_apply inputs num_embeddings features embedding_init st = (Ok out, st')
      /\ shape out = [B; features]
      /\ forall i, i < B -> row out i = row table (Z.to_nat (get inputs [i; 0])).
Proof.
  intros inputs table N F B init st st' Hdt Hsh Hpar Htab HN Hrange.
  unfold Embed_apply. fold embed_dtypes.
  rewrite bool_decide_eq_true_2 by exact Hdt. cbn [negb].
  unfold bind. rewrite Hpar. unfold lift, gather, ndim.
  rewrite Hsh, Htab. cbn [rev app length offset_dims collapsed_slice_dims
    start_index_map Nat.add].
  change (to_dims 2 [(Z.of_nat 2 - 1)%Z]) with (Some [1]).
  change (to_dims 2 [0%Z]) with (Some [0]).
  unfold dim. rewrite Htab.
  cbn [free_dims seq List.filter memb existsb Nat.eqb negb orb length app
       ascendingb nodupb forallb andb nth Nat.leb Nat.ltb].
  rewrite Nat.leb_refl. cbn [andb].
  destruct N as [|N]; [lia|]. cbn [Nat.leb andb].
  eexists. split; [reflexivity|]. split; [reflexivity|].
  intros i Hi. unfold row, dim. cbn [shape build nth]. rewrite Htab. cbn [nth].
  apply map_ext_in. intros j Hj. apply in_seq in Hj.
  rewrite get_build.
  - change (free_dims 2 [1]) with [0]. change (free_dims 2 [0]) with [1].
    cbn [map seq nth app start_at Nat.eqb assoc].
    specialize (Hrange i Hi). unfold clamp.
    rewrite Z.min_l, Z.max_r by lia.
    rewrite Nat.add_0_r, Nat.sub_diag. reflexivity.
  - unfold in_bounds. cbn. constructor; [lia|]. constructor; [lia|]. constructor.
Qed.

(** ** Contraction of the last axis *)

Lemma indices_1 (n : nat) : indices [n] = map (fun c => [c]) (seq 0 n).
Proof.
  simpl. generalize 0 as a. induction n as [|n IH]; intros a; simpl; [reflexivity|].
  now rewrite IH.
Qed.

Lemma map_nth_seq {A} (d : A) (l : list A) :
  map (fun p => nth p l d) (seq 0 (length l)) = l.
Proof.
  induction l as [|x l IH]; simpl; [reflexivity|].
  f_equal. rewrite <- seq_shift, map_map. exact IH.
Qed.

Lemma assoc_seq (r : nat) :
  forall a p v, length v = r -> a <= p < a + r ->
    assoc p (seq a r) v = nth (p - a) v 0.
Proof.
  induction r as [|r IH]; intros a p v Hv Hp; [lia|].
  destruct v as [|x v]; [discriminate|]. simpl.
  destruct (a =? p) eqn:E.
  - apply Nat.eqb_eq in E. subst. now rewrite Nat.sub_diag.
  - apply Nat.eqb_neq in E. rewrite IH by (simpl in Hv; lia).
    replace (p - a) with (S (p - S a)) by lia. reflexivity.
Qed.

Lemma place_seq (v : list nat) : place (seq 0 (length v)) v (length v) = v.
Proof.
  unfold place.
  transitivity (map (fun p => nth p v 0) (seq 0 (length v))); [|apply map_nth_seq].
  apply map_ext_in. intros p Hp. apply in_seq in Hp.
  rewrite assoc_seq by lia. now rewrite Nat.sub_0_r.
Qed.

Lemma free_dims_keep (used : list nat) (len : nat) :
  forall a, (forall p, a <= p < a + len -> memb p used = false) ->
    List.filter (fun p => negb (memb p used)) (seq a len) = seq a len.
Proof.
  induction len as [|len IH]; intros a H; simpl; [reflexivity|].
  rewrite H by lia. simpl. f_equal. apply IH. intros p Hp. apply H. lia.
Qed.

Lemma free_dims_last (m : nat) : free_dims (S m) [m] = seq 0 m.
Proof.
  unfold free_dims. rewrite seq_S, List.filter_app.
  cbn [List.filter memb existsb Nat.add]. rewrite Nat.eqb_refl.
  cbn [orb negb]. rewrite app_nil_r.
  apply (free_dims_keep [m]). intros p Hp. simpl.
  destruct (p =? m) eqn:E; [apply Nat.eqb_eq in E; lia | reflexivity].
Qed.

Lemma to_dims_last (m : nat) : to_dims (S m) [(Z.of_nat (S m) - 1)%Z] = Some [m].
Proof.
  unfold to_dims, to_dim.
  replace (Z.of_nat (S m) - 1)%Z with (Z.of_nat m) by lia.
  destruct (Z.leb_spec 0 (Z.of_nat m)); [|lia].
  destruct (Z.ltb_spec (Z.of_nat m) (Z.of_nat (S m))); [|lia].
  simpl. now rewrite Nat2Z.id.
Qed.

Lemma map_dim_prefix (x : tensor) (s : list nat) (n : nat) :
  shape x = s ++ [n] -> map (dim x) (seq 0 (length s)) = s.
Proof.
  intros H. unfold dim. rewrite H.
  transitivity (map (fun p => nth p s 0) (seq 0 (length s))); [|apply map_nth_seq].
  apply map_ext_in. intros p Hp. apply in_seq in Hp.
  apply app_nth1. lia.
Qed.

Lemma dim_last (x : tensor) (s : list nat) (n : nat) :
  shape x = s ++ [n] -> dim x (length s) = n.
Proof.
  intros H. unfold dim. rewrite H, app_nth2, Nat.sub_diag by lia. reflexivity.
Qed.

(** [lax.dot_general] as [Dense] calls it: the last axis of [x] against the
    first axis of a matrix. *)
Lemma dot_general_last_axis (x k : tensor) (s : list nat) (n n' f : nat)
    (precision : option Precision) :
  shape x = s ++ [n] -> shape k = [n'; f] ->
  exists g,
    dot_general x k (([(Z.of_nat (ndim x) - 1)%Z], [0%Z]), ([], [])) precision
    = (if n =? n'
       then Ok (build (promote_types (dtype x) (dtype k)) (s ++ [f]) g)
       else Raise (LaxError "dot_general"))
    /\ forall o, in_bounds (s ++ [f]) o ->
         g o = sumZ (map (fun c =>
                  (get x (firstn (length s) o ++ [c])
                   * get k [c; nth (length s) o 0%nat])%Z) (seq 0 n)).
Proof.
  intros Hx Hk. unfold dot_general, ndim. rewrite Hx, Hk, List.length_app.
  cbn [length]. rewrite Nat.add_1_r, to_dims_last.
  change (to_dims 2 [0%Z]) with (Some [0]).
  cbn [to_dims app nodupb memb existsb negb andb map].
  rewrite (dim_last x s n Hx). unfold dim at 1. rewrite Hk. cbn [nth].
  rewrite free_dims_last. change (free_dims 2 [0]) with [1].
  rewrite (map_dim_prefix x s n Hx). unfold dim at 1. rewrite Hk.
  cbn [map nth length Nat.add].
  eexists. split.
  - unfold shape_eqb. destruct (Nat.eqb_spec n n') as [E|Hne].
    + rewrite !bool_decide_eq_true_2 by congruence. reflexivity.
    + rewrite bool_decide_eq_false_2 by congruence. reflexivity.
  - intros o Ho. cbn beta. rewrite length_seq.
    pose proof (in_bounds_length _ _ Ho) as Hlen.
    rewrite List.length_app in Hlen. cbn [length] in Hlen.
    rewrite indices_1, map_map. cbn [firstn skipn app].
    f_equal. apply map_ext. intros c.
    assert (Hs : seq 0 (length s) ++ [length s]
                 = seq 0 (length (firstn (length s) o ++ [c]))).
    { rewrite List.length_app, length_firstn. cbn [length].
      replace (Nat.min (length s) (length o) + 1) with (S (length s)) by lia.
      now rewrite seq_S. }
    assert (Hr : S (length s) = length (firstn (length s) o ++ [c])).
    { rewrite List.length_app, length_firstn. cbn [length]. lia. }
    rewrite Hs, Hr, place_seq.
    assert (Hj : skipn (length s) o = [nth (length s) o 0]).
    { clear - Hlen. revert o Hlen. induction s as [|a s IH]; intros o Hlen.
      - destruct o as [|y [|z o]]; simpl in *; try lia. reflexivity.
      - destruct o as [|y o]; simpl in *; [lia|]. apply IH. lia. }
    rewrite Hj. reflexivity.
Qed.

(** ** The identity kernel *)

Lemma get_asarray (t : tensor) (dt : DType) (idx : list nat) :
  get (asarray t dt) idx = get t idx.
Proof. reflexivity. Qed.

Lemma get_eye (n : nat) (dt : DType) (c j : nat) :
  c < n -> j < n -> get (eye n dt) [c; j] = if c =? j then 1%Z else 0%Z.
Proof.
  intros Hc Hj. unfold eye. rewrite get_build; [reflexivity|].
  unfold in_bounds. constructor; [lia|]. constructor; [lia|]. constructor.
Qed.

(** A sum against one column of the identity picks one term. *)
Lemma sum_delta (F : nat -> Z) (j n : nat) :
  forall a,
    sumZ (map (fun c => (F c * (if (c =? j)%nat then 1 else 0))%Z) (seq a n))
    = if (a <=? j) && (j <? a + n) then F j else 0%Z.
Proof.
  induction n as [|n IH]; intros a; simpl.
  - destruct (a <=? j) eqn:E1, (j <? a + 0) eqn:E2; try reflexivity.
    apply Nat.leb_le in E1. apply Nat.ltb_lt in E2. lia.
  - rewrite IH. destruct (Nat.eqb_spec a j) as [->|Hne].
    + rewrite Nat.leb_refl.
      destruct (Nat.ltb_spec j (j + S n)); [|lia].
      destruct (Nat.leb_spec (S j) j); [lia|]. simpl. lia.
    + destruct (Nat.leb_spec (S a) j), (Nat.leb_spec a j); try lia;
        destruct (Nat.ltb_spec j (S a + n)), (Nat.ltb_spec j (a + S n));
        try lia; simpl; lia.
Qed.

Lemma py_index_last_inv {A} (l : list A) (n : A) :
  py_index l (-1) = Ok n -> exists s, l = s ++ [n].
Proof.
  destruct l as [|x l'] using rev_ind; [discriminate|]. clear IHl'.
  unfold py_index. rewrite List.length_app. cbn [length].
  change (-1 <? 0)%Z with true. cbv iota.
  replace (Z.of_nat (length l' + 1) + -1)%Z with (Z.of_nat (length l')) by lia.
  destruct (Z.leb_spec 0 (Z.of_nat (length l'))); [|lia].
  destruct (Z.ltb_spec (Z.of_nat (length l')) (Z.of_nat (length l' + 1))); [|lia].
  cbn [andb]. rewrite Nat2Z.id, nth_error_app2, Nat.sub_diag by lia.
  cbn. intros [= ->]. now exists l'.
Qed.

Lemma data_build_get (t : tensor) :
  wf_tensor t -> map (get t) (indices (shape t)) = data t.
Proof.
  intros H. pose proof (build_get t H) as E.
  apply (f_equal data) in E. exact E.
Qed.

Lemma in_bounds_split_last (s o : list nat) (n : nat) :
  in_bounds (s ++ [n]) o ->
  o = firstn (length s) o ++ [nth (length s) o 0] /\ nth (length s) o 0 < n.
Proof.
  unfold in_bounds. revert o. induction s as [|a s IH]; intros o H.
  - inversion H as [|i d o' l' Hlt Hrest]; subst.
    inversion Hrest; subst. simpl. split; [reflexivity | exact Hlt].
  - inversion H as [|i d o' l' Hlt Hrest]; subst.
    destruct (IH o' Hrest) as [E Hn]. simpl. split; [|exact Hn].
    f_equal. exact E.
Qed.

(** C9. For an input whose last axis has size [n], [Dense] with
    [features = n], without bias and with the identity matrix as kernel
    returns the elements of the input in the shape of the input. *)
Theorem Dense_identity_kernel :
  forall (inputs : tensor) (n : nat) (dt kernel_dtype : DType)
         (precision : option Precision) (kernel_init bias_init : initializer)
         (st : store),
    wf_tensor inputs ->
    py_index (shape inputs) (-1) = Ok n ->
    params st !! "kernel" = Some (eye n kernel_dtype) ->
    exists y,
      Dense_apply inputs n false dt precision kernel_init bias_init st = (Ok y, st)
      /\ shape y = shape inputs
      /\ data y = data inputs.
Proof.
  intros x n dt kdt prec ki bi st Hwf Hidx Hker.
  destruct (py_index_last_inv _ _ Hidx) as [s Hs].
  destruct (dot_general_last_axis (asarray x dt) (asarray (eye n kdt) dt)
              s n n n prec Hs eq_refl) as (g & Hdot & Hg).
  rewrite Nat.eqb_refl in Hdot.
  unfold Dense_apply. cbn [asarray shape] in *. rewrite Hidx, bind_lift_Ok.
  unfold bind at 1. rewrite (param_lookup _ _ _ _ _ Hker).
  unfold bind, lift, ret. cbn [asarray shape] in *.
  change (ndim {| shape := shape x; dtype := dt; data := data x |})
    with (ndim (asarray x dt)).
  change {| shape := shape x; dtype := dt; data := data x |} with (asarray x dt).
  change {| shape := shape (eye n kdt); dtype := dt; data := data (eye n kdt) |}
    with (asarray (eye n kdt) dt).
  rewrite Hdot. eexists. split; [reflexivity|]. split; [now rewrite Hs|].
  cbn [build data]. rewrite <- (data_build_get x Hwf), Hs.
  apply map_ext_in. intros o Ho. apply in_indices in Ho.
  rewrite (Hg o Ho).
  destruct (in_bounds_split_last s o n Ho) as [Eo Hj].
  transitivity (sumZ (map (fun c =>
      (get x (firstn (length s) o ++ [c])
       * (if (c =? nth (length s) o 0)%nat then 1 else 0))%Z) (seq 0 n))).
  - f_equal. apply map_ext_in. intros c Hc. apply in_seq in Hc.
    rewrite !get_asarray, get_eye by lia. reflexivity.
  - rewrite (sum_delta (fun c => get x (firstn (length s) o ++ [c]))).
    destruct (Nat.leb_spec 0 (nth (length s) o 0)); [|lia].
    destruct (Nat.ltb_spec (nth (length s) o 0) (0 + n)); [|lia].
    cbn [andb]. now rewrite <- Eo.
Qed.

(** ** Sorted sets of axes *)









(** ** [DenseGeneral] on the last axis against [Dense] *)











(** ** The bias of [DenseGeneral] *)




Lemma param_other (name name' : string) (sh : list nat) (init : initializer)
    (st st' : store) (r : result tensor) :
  param name sh init st = (r, st') -> name <> name' ->
  params st' !! name' = params st !! name'.
Proof.
  unfold param. destruct (params st !! name) as [u|].
  - now intros [= <- <-].
  - destruct (init (rngs st name) sh None) as [u|e]; intros [= <- <-] Hne.
    + cbn [params]. now apply lookup_insert_ne.
    + reflexivity.
Qed.

Lemma reshape_shape (t t' : tensor) (sh : list nat) :
  reshape t sh = Ok t' -> shape t' = sh.
Proof.
  unfold reshape. destruct (numel sh =? length (data t)); [|discriminate].
  now intros [= <-].
Qed.



(** ** The kernel initializer of [DenseGeneral] *)

Lemma py_slice_prefix {A} (l1 l2 : list A) :
  py_slice (l1 ++ l2) None (Some (Z.of_nat (length l1))) = l1.
Proof.
  unfold py_slice, py_bound. rewrite List.length_app.
  destruct (Z.ltb_spec (Z.of_nat (length l1)) 0); [lia|].
  rewrite Z.max_l, Z.min_l, Nat2Z.id by lia.
  rewrite skipn_O, Nat.sub_0_r, firstn_app, Nat.sub_diag, firstn_all, firstn_O.
  apply app_nil_r.
Qed.

Lemma py_slice_middle {A} (l1 l2 l3 : list A) :
  py_slice (l1 ++ l2 ++ l3) (Some (Z.of_nat (length l1)))
    (Some (Z.of_nat (length l2) + Z.of_nat (length l1))%Z) = l2.
Proof.
  unfold py_slice, py_bound. rewrite !List.length_app.
  destruct (Z.ltb_spec (Z.of_nat (length l1)) 0); [lia|].
  destruct (Z.ltb_spec (Z.of_nat (length l2) + Z.of_nat (length l1)) 0); [lia|].
  rewrite !Z.max_l, !Z.min_l by lia.
  rewrite Nat2Z.id, <- Nat2Z.inj_add, Nat2Z.id.
  replace (length l2 + length l1 - length l1) with (length l2) by lia.
  rewrite skipn_app, Nat.sub_diag, skipn_all, skipn_O. cbn [app].
  rewrite firstn_app, Nat.sub_diag, firstn_all, firstn_O. apply app_nil_r.
Qed.

(** [t[-n:]] is the last [n] elements when [n] is positive. *)
Lemma py_slice_suffix {A} (l1 l2 : list A) :
  l2 <> [] ->
  py_slice (l1 ++ l2) (Some (- Z.of_nat (length l2))%Z) None = l2.
Proof.
  intros Hne. assert (0 < length l2) by (destruct l2; [congruence | simpl; lia]).
  unfold py_slice, py_bound. rewrite List.length_app.
  destruct (Z.ltb_spec (- Z.of_nat (length l2)) 0); [|lia].
  rewrite Z.max_l, Z.min_l by lia.
  replace (Z.to_nat (Z.of_nat (length l1 + length l2) + - Z.of_nat (length l2)))
    with (length l1) by lia.
  rewrite skipn_app, Nat.sub_diag, skipn_all, skipn_O. cbn [app].
  apply firstn_all2. lia.
Qed.

(** [t[-0:]] is the whole tuple. *)
Lemma py_slice_minus_zero {A} (l : list A) :
  py_slice l (Some (- Z.of_nat 0)%Z) None = l.
Proof.
  unfold py_slice, py_bound. change (- Z.of_nat 0 <? 0)%Z with false.
  cbv iota. replace (Z.to_nat _) with 0 by lia. rewrite skipn_O.
  apply firstn_all2. lia.
Qed.

Lemma wrap_int32_small (z : Z) :
  (0 <= z < 2 ^ 31)%Z -> wrap_int32 z = z.
Proof.
  intros H. unfold wrap_int32. rewrite Z.mod_small by lia. lia.
Qed.

(** For a non-empty [features] and fewer than 2^31 batch slices, the
    initializer of the kernel calls [kernel_init] once per batch index with
    the flat shape (product of the contracted sizes, product of the
    features), concatenates the slices and reshapes them. *)
Lemma kernel_init_wrap_slices (kernel_init : initializer)
    (batch_shape axis_shape features : list nat) (rng : PRNGKey)
    (dt : option DType) :
  features <> [] ->
  (Z.of_nat (numel batch_shape) < 2 ^ 31)%Z ->
  kernel_init_wrap kernel_init (length batch_shape) (length axis_shape)
    (length features) rng (batch_shape ++ axis_shape ++ features) dt
  = rbind (rmapM (fun _ => kernel_init rng [numel axis_shape; numel features]
                              (Some (default_dtype dt)))
             (seqZ 0 (Z.of_nat (numel batch_shape))))
      (fun slices =>
         rbind (concatenate0 slices)
           (fun kernel => reshape kernel (batch_shape ++ axis_shape ++ features))).
Proof.
  intros Hf Hsmall. unfold kernel_init_wrap, onp_prod_int32, onp_prod, py_range.
  rewrite py_slice_prefix, py_slice_middle.
  rewrite List.app_assoc, py_slice_suffix by exact Hf.
  rewrite wrap_int32_small by lia. reflexivity.
Qed.

(** With an empty [features] the second entry of the flat shape is the
    product of the whole kernel shape. *)
Lemma kernel_init_wrap_no_features (kernel_init : initializer)
    (batch_shape axis_shape : list nat) (rng : PRNGKey) (dt : option DType) :
  (Z.of_nat (numel batch_shape) < 2 ^ 31)%Z ->
  kernel_init_wrap kernel_init (length batch_shape) (length axis_shape) 0
    rng (batch_shape ++ axis_shape) dt
  = rbind (rmapM (fun _ => kernel_init rng
                              [numel axis_shape; numel (batch_shape ++ axis_shape)]
                              (Some (default_dtype dt)))
             (seqZ 0 (Z.of_nat (numel batch_shape))))
      (fun slices =>
         rbind (concatenate0 slices)
           (fun kernel => reshape kernel (batch_shape ++ axis_shape))).
Proof.
  intros Hsmall. unfold kernel_init_wrap, onp_prod_int32, onp_prod, py_range.
  rewrite py_slice_prefix.
  pose proof (py_slice_middle batch_shape axis_shape []) as Hmid.
  rewrite List.app_nil_r in Hmid. rewrite Hmid.
  rewrite py_slice_minus_zero.
  rewrite wrap_int32_small by lia. reflexivity.
Qed.

(** ** Negative axes *)

(** An axis in [-ndim .. ndim - 1] is normalized to [0 .. ndim - 1]. *)
Lemma _normalize_axes_range (axes : list Z) (nd : Z) :
  Forall (fun ax => (- nd <= ax < nd)%Z) axes ->
  Forall (fun ax => (0 <= ax < nd)%Z) (_normalize_axes axes nd).
Proof.
  unfold _normalize_axes. rewrite !List.Forall_forall. intros H y Hy.
  apply in_map_iff in Hy as (ax & <- & Hin). specialize (H ax Hin).
  destruct (Z.leb_spec 0 ax); lia.
Qed.

Lemma _normalize_axes_idem (axes : list Z) (nd : Z) :
  Forall (fun ax => (- nd <= ax)%Z) axes ->
  _normalize_axes (_normalize_axes axes nd) nd = _normalize_axes axes nd.
Proof.
  unfold _normalize_axes. intros H. rewrite map_map. apply map_ext_in.
  intros ax Hin. rewrite List.Forall_forall in H. specialize (H ax Hin).
  destruct (Z.leb_spec 0 ax) as [Hp|Hn].
  - destruct (Z.leb_spec 0 ax); [reflexivity | lia].
  - destruct (Z.leb_spec 0 (nd + ax)); [reflexivity | lia].
Qed.

(** A negative [axis] is treated as its non-negative form. *)
Lemma DenseGeneral_axis_negative_form (inputs : tensor)
    (features : int_or_tuple nat) (axis : list Z) (batch_dims : int_or_tuple Z)
    (bias : bool) (kernel_init bias_init : initializer)
    (precision : option Precision) :
  Forall (fun ax => (- Z.of_nat (ndim inputs) <= ax)%Z) axis ->
  DenseGeneral_apply inputs features
    (Tuple (_normalize_axes axis (Z.of_nat (ndim inputs)))) batch_dims bias
    kernel_init bias_init precision
  = DenseGeneral_apply inputs features (Tuple axis) batch_dims bias
      kernel_init bias_init precision.
Proof.
  intros H. unfold DenseGeneral_apply. cbn [as_tuple].
  now rewrite (_normalize_axes_idem axis _ H).
Qed.

(** A negative entry of [batch_dims] never passes the validation, which
    runs before the normalization of line 81. *)
Lemma check_batch_dims_negative (batch_dims : list Z) (x : Z) :
  x ∈ batch_dims -> (x < 0)%Z ->
  check_batch_dims batch_dims = Raise (ValueError (batch_dims_message batch_dims)).
Proof.
  intros Hin Hneg. unfold check_batch_dims.
  destruct batch_dims as [|b l]; [inversion Hin|].
  rewrite bool_decide_eq_true_2; [reflexivity|].
  intros Heq. rewrite py_set_range_eq in Heq. apply Heq in Hin. lia.
Qed.

(** ** What the layers do to the parameter store *)

(** Set reasoning that leaves the assumptions on the framework aside. *)
Ltac store_solver :=
  clear promote_types_idem conv_general_dilated_dtype;
  try clear conv_general_dilated; try clear promote_types; set_solver.

Lemma creates_only_lift {A} (names : gset string) (r : result A) :
  creates_only names (lift r).
Proof using Type.
  intros st st' r' [= <- <-]. split; [reflexivity|]. split; [store_solver | reflexivity].
Qed.

Lemma creates_only_ret {A} (names : gset string) (a : A) :
  creates_only names (ret a).
Proof using Type. apply (creates_only_lift names (Ok a)). Qed.

Lemma creates_only_raise {A} (names : gset string) (e : exn) :
  creates_only names (@raise A e).
Proof using Type. apply (creates_only_lift names (Raise e)). Qed.

Lemma creates_only_param (names : gset string) (name : string) (sh : list nat)
    (init : initializer) :
  name ∈ names -> creates_only names (param name sh init).
Proof using Type.
  intros Hin st st' r. unfold param.
  destruct (params st !! name) as [t|] eqn:Hl.
  - intros [= <- <-]. split; [reflexivity|]. split; [store_solver | reflexivity].
  - destruct (init (rngs st name) sh None) as [t|e]; intros [= <- <-]; cbn [params rngs].
    + split; [now apply insert_subseteq|]. split; [|reflexivity].
      rewrite dom_insert_L. store_solver.
    + split; [reflexivity|]. split; [store_solver | reflexivity].
Qed.

Lemma creates_only_bind {A B} (names : gset string) (m : M A) (k : A -> M B) :
  creates_only names m -> (forall a, creates_only names (k a)) ->
  creates_only names (bind m k).
Proof using Type.
  intros Hm Hk st st' r. unfold bind.
  destruct (m st) as [[a|e] s1] eqn:Em.
  - intros Ek. destruct (Hm _ _ _ Em) as (H1 & H2 & H3).
    destruct (Hk a _ _ _ Ek) as (H4 & H5 & H6).
    split; [etransitivity; eassumption|]. split; [|congruence].
    intros x Hx. apply H5 in Hx. apply elem_of_union in Hx as [Hx|Hx].
    + now apply H2.
    + apply elem_of_union. now right.
  - intros [= <- <-]. exact (Hm _ _ _ Em).
Qed.

Ltac creates_only_steps :=
  repeat first
    [ apply creates_only_lift
    | apply creates_only_ret
    | apply creates_only_raise
    | apply creates_only_param; store_solver
    | apply creates_only_bind; [|intros ?]
    | match goal with
      | |- creates_only _ (if ?c then _ else _) => destruct c
      | |- creates_only _ (match ?c with _ => _ end) => destruct c
      end ].

(** X1. The four layers create parameters under their own names at most:
    ["kernel"] and, with bias, ["bias"] for [DenseGeneral], [Dense] and
    [Conv]; ["embedding"] for [Embed].  A parameter that is in the store
    before a call is there afterwards with the same value, whether the call
    returns or raises, and the keys of the module are not touched. *)
Theorem layers_create_only_their_parameters :
  forall (inputs : tensor) (features : nat) (bias : bool)
         (kernel_init bias_init : initializer) (precision : option Precision),
    (forall (fs : int_or_tuple nat) (axis batch_dims : int_or_tuple Z),
       creates_only (if bias then {["kernel"; "bias"]} else {["kernel"]})
         (DenseGeneral_apply inputs fs axis batch_dims bias
            kernel_init bias_init precision))
    /\ (forall dt : DType,
         creates_only (if bias then {["kernel"; "bias"]} else {["kernel"]})
           (Dense_apply inputs features bias dt precision kernel_init bias_init))
    /\ (forall (kernel_size : list nat) (strides : option (list Z))
               (padding : Padding) (lhs_dilation rhs_dilation : option (list Z))
               (feature_group_count : nat) (dt : DType),
         creates_only (if bias then {["kernel"; "bias"]} else {["kernel"]})
           (Conv_apply inputs features kernel_size strides padding lhs_dilation
              rhs_dilation feature_group_count bias dt precision
              kernel_init bias_init))
    /\ (forall num_embeddings : nat,
         creates_only {["embedding"]}
           (Embed_apply inputs num_embeddings features kernel_init)).
Proof using Type.
  intros inputs features bias ki bi prec. split; [|split; [|split]].
  - intros fs axis batch_dims. unfold DenseGeneral_apply.
    destruct bias; creates_only_steps.
  - intros dt. unfold Dense_apply. destruct bias; creates_only_steps.
  - intros ks strides padding ld rd g dt. unfold Conv_apply.
    destruct bias; creates_only_steps.
  - intros n. unfold Embed_apply. creates_only_steps.
Qed.

(** ** The affine map of [Dense] *)





Lemma in_bounds_app (s i : list nat) (f j : nat) :
  in_bounds s i -> j < f -> in_bounds (s ++ [f]) (i ++ [j]).
Proof using Type.
  unfold in_bounds. intros Hi Hj. apply Forall2_app; [exact Hi|].
  constructor; [exact Hj | constructor].
Qed.


(** ** Calling a layer again *)

Lemma reruns_as_lift {A} (r : result A) : reruns_as (lift r) (lift r).
Proof using Type. intros st st' y [= -> _] s2 _. reflexivity. Qed.

Lemma reruns_as_raise {A} (e : exn) : reruns_as (@raise A e) (@raise A e).
Proof using Type. intros st st' y H. discriminate. Qed.

Lemma reruns_as_param (name : string) (sh sh' : list nat) (init init' : initializer) :
  reruns_as (param name sh init) (param name sh' init').
Proof using Type.
  intros st st' y H s2 Hsub. apply param_stored in H.
  apply param_lookup. eapply lookup_weaken; eassumption.
Qed.

Lemma reruns_as_bind {A B} (names : gset string) (m m' : M A) (k k' : A -> M B) :
  reruns_as m m' -> (forall a, reruns_as (k a) (k' a)) ->
  (forall a, creates_only names (k a)) ->
  reruns_as (bind m k) (bind m' k').
Proof using Type.
  intros Hm Hk Hc st st' y H s2 Hsub.
  apply bind_Ok_inv in H as (a & s1 & Hma & Hka).
  destruct (Hc a _ _ _ Hka) as (Hgrow & _ & _).
  unfold bind. rewrite (Hm _ _ _ Hma s2) by (etransitivity; eassumption).
  exact (Hk a _ _ _ Hka s2 Hsub).
Qed.

Ltac reruns_as_steps :=
  repeat first
    [ apply reruns_as_lift
    | apply reruns_as_raise
    | apply reruns_as_param
    | apply (reruns_as_bind {["kernel"; "bias"; "embedding"]});
      [ | intros ? | intros ?; creates_only_steps ]
    | match goal with
      | |- reruns_as (if ?c then _ else _) _ => destruct c
      | |- reruns_as (match ?c with _ => _ end) _ => destruct c
      end ].

(** X3. When a call of a layer has returned [y], the same call made again
    on the store it left, or on any store that holds at least those
    parameters, returns [y] and changes nothing; the initializers passed to
    the second call are not used, whatever they are. *)
Theorem layers_rerun :
  forall (inputs : tensor) (features : nat) (bias : bool)
         (kernel_init bias_init kernel_init' bias_init' : initializer)
         (precision : option Precision),
    (forall (fs : int_or_tuple nat) (axis batch_dims : int_or_tuple Z),
       reruns_as
         (DenseGeneral_apply inputs fs axis batch_dims bias
            kernel_init bias_init precision)
         (DenseGeneral_apply inputs fs axis batch_dims bias
            kernel_init' bias_init' precision))
    /\ (forall dt : DType,
         reruns_as
           (Dense_apply inputs features bias dt precision kernel_init bias_init)
           (Dense_apply inputs features bias dt precision kernel_init' bias_init'))
    /\ (forall (kernel_size : list nat) (strides : option (list Z))
               (padding : Padding) (lhs_dilation rhs_dilation : option (list Z))
               (feature_group_count : nat) (dt : DType),
         reruns_as
           (Conv_apply inputs features kernel_size strides padding lhs_dilation
              rhs_dilation feature_group_count bias dt precision
              kernel_init bias_init)
           (Conv_apply inputs features kernel_size strides padding lhs_dilation
              rhs_dilation feature_group_count bias dt precision
              kernel_init' bias_init'))
    /\ (forall num_embeddings : nat,
         reruns_as
           (Embed_apply inputs num_embeddings features kernel_init)
           (Embed_apply inputs num_embeddings features kernel_init')).
Proof using Type.
  intros inputs features bias ki bi ki' bi' prec. split; [|split; [|split]].
  - intros fs axis batch_dims. unfold DenseGeneral_apply.
    destruct bias; reruns_as_steps.
  - intros dt. unfold Dense_apply. destruct bias; reruns_as_steps.
  - intros ks strides padding ld rd g dt. unfold Conv_apply.
    destruct bias; reruns_as_steps.
  - intros n. unfold Embed_apply. reruns_as_steps.
Qed.

(** ** [_normalize_axes] and Python indexing *)

Lemma py_index_normalized {A} (l : list A) (ax : Z) :
  (- Z.of_nat (length l) <= ax)%Z ->
  py_index l (if (0 <=? ax)%Z then ax else (Z.of_nat (length l) + ax)%Z)
  = py_index l ax.
Proof using Type.
  intros H. destruct (Z.leb_spec 0 ax) as [Hp|Hn]; [reflexivity|].
  unfold py_index.
  destruct (Z.ltb_spec (Z.of_nat (length l) + ax) 0); [lia|].
  destruct (Z.ltb_spec ax 0); [reflexivity | lia].
Qed.

(** X4. Axes in [-ndim .. ndim - 1] are normalized, one for one, to axes in
    [0 .. ndim - 1], and the sizes read from a shape of that rank at the
    normalized axes are the sizes Python reads at the axes as given. *)
Theorem _normalize_axes_in_range :
  forall (sh : list nat) (axes : list Z),
    Forall (fun ax => (- Z.of_nat (length sh) <= ax < Z.of_nat (length sh))%Z) axes ->
    length (_normalize_axes axes (Z.of_nat (length sh))) = length axes
    /\ Forall (fun ax => (0 <= ax < Z.of_nat (length sh))%Z)
         (_normalize_axes axes (Z.of_nat (length sh)))
    /\ rmapM (py_index sh) (_normalize_axes axes (Z.of_nat (length sh)))
       = rmapM (py_index sh) axes.
Proof using Type.
  intros sh axes H. split; [apply List.length_map|].
  split; [now apply _normalize_axes_range|].
  unfold _normalize_axes. induction H as [|ax axes Hax _ IH]; [reflexivity|].
  cbn [map rmapM]. rewrite py_index_normalized by lia. now rewrite IH.
Qed.

(** X5. An axis below [-ndim], down to [-2 * ndim], is still negative after
    [_normalize_axes], and the shape lookups of lines 92-93 do not raise for
    it: they read the size of the axis [2 * ndim + ax]. *)
Theorem _normalize_axes_below_range :
  forall (sh : list nat) (ax : Z),
    (- 2 * Z.of_nat (length sh) <= ax < - Z.of_nat (length sh))%Z ->
    exists ax' : Z,
      _normalize_axes [ax] (Z.of_nat (length sh)) = [ax']
      /\ (ax' < 0)%Z
      /\ py_index sh ax'
         = Ok (nth (Z.to_nat (2 * Z.of_nat (length sh) + ax)) sh 0).
Proof using Type.
  intros sh ax H. exists (Z.of_nat (length sh) + ax)%Z.
  split; [|split; [lia|]].
  - unfold _normalize_axes. cbn [map].
    destruct (Z.leb_spec 0 ax); [lia | reflexivity].
  - unfold py_index.
    destruct (Z.ltb_spec (Z.of_nat (length sh) + ax) 0); [|lia].
    set (j := (Z.of_nat (length sh) + (Z.of_nat (length sh) + ax))%Z).
    destruct (Z.leb_spec 0 j); [|lia].
    destruct (Z.ltb_spec j (Z.of_nat (length sh))); [|lia]. cbn [andb].
    replace (2 * Z.of_nat (length sh) + ax)%Z with j by lia.
    destruct (nth_error sh (Z.to_nat j)) as [x|] eqn:E.
    + now rewrite (nth_error_nth _ _ 0 E).
    + apply nth_error_None in E. lia.
Qed.

(** ** [_conv_dimension_numbers] *)

(** X6. For an input of rank at least 2, each of the three specs of
    [_conv_dimension_numbers] lists every axis [0 .. ndim - 1] once; for a
    smaller rank each has two entries and lists no such permutation. *)
Theorem _conv_dimension_numbers_permutations :
  forall input_shape : list nat,
    let dn := _conv_dimension_numbers input_shape in
    let axes := py_range (Z.of_nat (length input_shape)) in
    out_spec dn = lhs_spec dn
    /\ (2 <= length input_shape -> lhs_spec dn ≡ₚ axes /\ rhs_spec dn ≡ₚ axes)
    /\ (length input_shape < 2 ->
        length (lhs_spec dn) = 2 /\ length (rhs_spec dn) = 2
        /\ ~ lhs_spec dn ≡ₚ axes /\ ~ rhs_spec dn ≡ₚ axes).
Proof using Type.
  intros sh dn axes. subst dn axes.
  unfold _conv_dimension_numbers, py_range, py_range2. cbn [lhs_spec rhs_spec out_spec].
  split; [reflexivity|]. split.
  - intros H. destruct (length sh) as [|[|m]]; [lia | lia |]. clear H.
    replace (Z.of_nat (S (S m)) - 1 - 1)%Z with (Z.of_nat m) by lia.
    replace (Z.of_nat (S (S m)) - 2 - 0)%Z with (Z.of_nat m) by lia.
    replace (Z.of_nat (S (S m)) - 1)%Z with (Z.of_nat (S m)) by lia.
    replace (Z.of_nat (S (S m)) - 2)%Z with (Z.of_nat m) by lia.
    split.
    + rewrite (seqZ_S 0 (S m)), Z.add_0_l.
      rewrite (seqZ_cons 0 (Z.of_nat (S m))) by lia.
      replace (Z.pred (Z.of_nat (S m))) with (Z.of_nat m) by lia.
      cbn [app]. constructor. change (Z.succ 0) with 1%Z.
      apply Permutation_cons_append.
    + rewrite (seqZ_S 0 (S m)), (seqZ_S 0 m), !Z.add_0_l. cbn [app].
      etransitivity; [apply Permutation_cons_append|].
      apply Permutation_app_tail. apply Permutation_cons_append.
  - intros H.
    assert (E1 : seqZ 1 (Z.of_nat (length sh) - 1 - 1) = []).
    { apply seqZ_nil. lia. }
    assert (E2 : seqZ 0 (Z.of_nat (length sh) - 2 - 0) = []).
    { apply seqZ_nil. lia. }
    rewrite E1, E2. cbn [app length].
    split; [reflexivity|]. split; [reflexivity|].
    split; intros HP; apply Permutation_length in HP;
      rewrite length_seqZ in HP; cbn [length] in HP; lia.
Qed.

(** ** The slices of the wrapped initializers *)

Lemma numel_app (a b : list nat) : numel (a ++ b) = numel a * numel b.
Proof using Type.
  unfold numel. induction a as [|x a IH]; cbn [app fold_right]; [lia|].
  rewrite IH. lia.
Qed.

Lemma rmapM_const {A B} (b : B) (l : list A) :
  rmapM (fun _ => Ok b) l = Ok (repeat b (length l)).
Proof using Type.
  induction l as [|x l IH]; [reflexivity|].
  cbn [rmapM rbind length repeat]. now rewrite IH.
Qed.

Lemma length_concat_repeat {A} (l : list A) (n : nat) :
  length (concat (repeat l n)) = n * length l.
Proof using Type.
  induction n as [|n IH]; [reflexivity|].
  cbn [repeat concat]. rewrite List.length_app, IH. lia.
Qed.

(** Calling an initializer that returns [t] once per batch index, then
    concatenating and reshaping, gives that many copies of [t]. *)
Lemma replicate_slices (init : result tensor) (t : tensor) (d : nat)
    (rest sh : list nat) (n : nat) :
  init = Ok t -> shape t = d :: rest -> wf_tensor t -> 0 < n ->
  numel sh = n * numel (d :: rest) ->
  exists out,
    rbind (rmapM (fun _ : Z => init) (seqZ 0 (Z.of_nat n)))
      (fun slices => rbind (concatenate0 slices) (fun a => reshape a sh))
    = Ok out
    /\ shape out = sh
    /\ data out = concat (repeat (data t) n)
    /\ wf_tensor out.
Proof using Type.
  intros -> Ht Hwf Hn Hsh. rewrite rmapM_const, length_seqZ, Nat2Z.id.
  cbn [rbind]. destruct n as [|n]; [lia|]. cbn [repeat concatenate0].
  rewrite Ht.
  assert (Hall : forallb (fun u => match shape u with
                                   | [] => false
                                   | _ :: rest' => shape_eqb rest rest'
                                   end) (repeat t n) = true).
  { apply forallb_forall. intros u Hu. apply repeat_spec in Hu. subst u.
    rewrite Ht. unfold shape_eqb. now apply bool_decide_eq_true_2. }
  rewrite Hall. cbn [rbind]. unfold reshape. cbn [data].
  change (t :: repeat t n) with (repeat t (S n)).
  rewrite List.map_repeat, length_concat_repeat, Hsh.
  unfold wf_tensor in Hwf. rewrite Hwf, Ht, Nat.eqb_refl.
  eexists. split; [reflexivity|]. split; [reflexivity|]. split; [reflexivity|].
  unfold wf_tensor. cbn [data shape].
  rewrite length_concat_repeat, Hsh, Hwf, Ht. reflexivity.
Qed.

Lemma bias_init_wrap_slices (bias_init : initializer)
    (batch_shape features : list nat) (rng : PRNGKey) (dt : option DType) :
  features <> [] ->
  (Z.of_nat (numel batch_shape) < 2 ^ 31)%Z ->
  bias_init_wrap bias_init (length batch_shape) (length features) rng
    (batch_shape ++ features) dt
  = rbind (rmapM (fun _ => bias_init rng [numel features] (Some (default_dtype dt)))
             (seqZ 0 (Z.of_nat (numel batch_shape))))
      (fun slices =>
         rbind (concatenate0 slices)
           (fun bias => reshape bias (batch_shape ++ features))).
Proof using Type.
  intros Hf Hsmall. unfold bias_init_wrap, onp_prod_int32, onp_prod, py_range.
  rewrite py_slice_prefix, py_slice_suffix by exact Hf.
  rewrite wrap_int32_small by lia. reflexivity.
Qed.

(** X7. For a non-empty [features] and a batch shape with between 1 and
    2^31 - 1 index vectors: when [kernel_init] returns, for the key it is
    given, a well-formed array of the flat shape it is asked for, the
    wrapped initializer of the kernel returns a well-formed array of the
    full kernel shape, and its elements are those of that one array, once
    per batch index: every call of line 88 gets the same key.  The same
    holds for the wrapped initializer of the bias. *)
Theorem init_wrap_replicates :
  forall (kernel_init bias_init : initializer)
         (batch_shape axis_shape features : list nat)
         (rng : PRNGKey) (dt : option DType) (tk tb : tensor),
    features <> [] ->
    0 < numel batch_shape ->
    (Z.of_nat (numel batch_shape) < 2 ^ 31)%Z ->
    kernel_init rng [numel axis_shape; numel features] (Some (default_dtype dt))
    = Ok tk ->
    shape tk = [numel axis_shape; numel features] -> wf_tensor tk ->
    bias_init rng [numel features] (Some (default_dtype dt)) = Ok tb ->
    shape tb = [numel features] -> wf_tensor tb ->
    (exists kernel,
       kernel_init_wrap kernel_init (length batch_shape) (length axis_shape)
         (length features) rng (batch_shape ++ axis_shape ++ features) dt
       = Ok kernel
       /\ shape kernel = batch_shape ++ axis_shape ++ features
       /\ data kernel = concat (repeat (data tk) (numel batch_shape))
       /\ wf_tensor kernel)
    /\ (exists bias,
         bias_init_wrap bias_init (length batch_shape) (length features) rng
           (batch_shape ++ features) dt
         = Ok bias
         /\ shape bias = batch_shape ++ features
         /\ data bias = concat (repeat (data tb) (numel batch_shape))
         /\ wf_tensor bias).
Proof using Type.
  intros ki bi B A F rng dt tk tb HF Hpos Hsmall Hk Hks Hkw Hb Hbs Hbw. split.
  - rewrite kernel_init_wrap_slices by assumption.
    apply (replicate_slices _ tk (numel A) [numel F]); try assumption.
    rewrite !numel_app. cbn [numel fold_right]. lia.
  - rewrite bias_init_wrap_slices by assumption.
    apply (replicate_slices _ tb (numel F) []); try assumption.
    rewrite numel_app. cbn [numel fold_right]. lia.
Qed.

(** X8. When a batch axis has size 0 there is no batch index: neither
    wrapped initializer calls its initializer, and each raises the
    ValueError of [jnp.concatenate] on an empty list. *)
Theorem init_wrap_empty_batch :
  forall (kernel_init bias_init : initializer)
         (batch_shape rest : list nat) (n_axis n_features : nat)
         (rng : PRNGKey) (dt : option DType),
    numel batch_shape = 0 ->
    kernel_init_wrap kernel_init (length batch_shape) n_axis n_features rng
      (batch_shape ++ rest) dt
    = Raise (ValueError "Need at least one array to concatenate.")
    /\ bias_init_wrap bias_init (length batch_shape) n_features rng
         (batch_shape ++ rest) dt
       = Raise (ValueError "Need at least one array to concatenate.").
Proof using Type.
  intros ki bi B rest na nf rng dt H0.
  unfold kernel_init_wrap, bias_init_wrap, onp_prod_int32, py_range.
  rewrite py_slice_prefix, H0. split; reflexivity.
Qed.

(** ** [Embed] on inputs of any rank *)

Lemma place_last_first (v : list nat) (x : nat) :
  place (length v :: seq 0 (length v)) (x :: v) (S (length v)) = v ++ [x].
Proof using Type.
  unfold place. rewrite seq_S, map_app. cbn [map Nat.add assoc].
  rewrite Nat.eqb_refl. f_equal.
  transitivity (map (fun p => nth p v 0) (seq 0 (length v))); [|apply map_nth_seq].
  apply map_ext_in. intros p Hp. apply in_seq in Hp.
  destruct (Nat.eqb_spec (length v) p); [lia|].
  rewrite assoc_seq by lia. now rewrite Nat.sub_0_r.
Qed.

Lemma map_nth_prefix (b : list nat) (j : nat) :
  map (fun p => nth p (b ++ [j]) 0) (seq 0 (length b)) = b.
Proof using Type.
  transitivity (map (fun p => nth p b 0) (seq 0 (length b))); [|apply map_nth_seq].
  apply map_ext_in. intros p Hp. apply in_seq in Hp. apply app_nth1. lia.
Qed.

(** X9. For an integer input of shape [bs ++ (1,)] of any rank, with every
    entry in [0 .. num_embeddings - 1], and an embedding table of shape
    [(num_embeddings, features)], [Embed] returns an array of shape
    [bs ++ (features,)]: the batch axes are carried through, and the
    element at [b ++ (j,)] is the table element at row [inputs[b, 0]],
    column [j]. *)
Theorem Embed_lookup_any_rank :
  forall (inputs table : tensor) (num_embeddings features : nat) (bs : list nat)
         (embedding_init : initializer) (st st' : store),
    dtype inputs ∈ embed_dtypes ->
    shape inputs = bs ++ [1] ->
    param "embedding" [num_embeddings; features] embedding_init st = (Ok table, st') ->
    shape table = [num_embeddings; features] ->
    0 < num_embeddings ->
    (forall b, in_bounds bs b ->
       (0 <= get inputs (b ++ [0%nat]) < Z.of_nat num_embeddings)%Z) ->
    exists out,
      Embed_apply inputs num_embeddings features embedding_init st = (Ok out, st')
      /\ shape out = bs ++ [features]
      /\ forall (b : list nat) (j : nat),
           in_bounds bs b -> j < features ->
           get out (b ++ [j])
           = get table [Z.to_nat (get inputs (b ++ [0])); j].
Proof using Type.
  intros inputs table N F bs init st st' Hdt Hsh Hpar Htab HN Hrange.
  unfold Embed_apply. fold embed_dtypes.
  rewrite bool_decide_eq_true_2 by exact Hdt. cbn [negb].
  unfold bind. rewrite Hpar. unfold lift, gather, ndim.
  rewrite Hsh, Htab, rev_app_distr. cbn [rev app]. rewrite rev_involutive.
  cbn [offset_dims collapsed_slice_dims start_index_map length].
  rewrite List.length_app. cbn [length].
  replace (length bs + 1) with (S (length bs)) by lia.
  rewrite to_dims_last.
  change (to_dims 2 [0%Z]) with (Some [0]).
  change (free_dims 2 [0]) with [1].
  rewrite free_dims_last.
  unfold dim. rewrite Htab.
  cbn [length app ascendingb nodupb forallb andb nth seq map memb existsb negb
       Nat.eqb Nat.leb].
  rewrite Nat.leb_refl. destruct N as [|N]; [lia|]. cbn [Nat.leb andb].
  change (free_dims 2 [0]) with [1]. cbn [length map app andb].
  rewrite place_last_first.
  eexists. split; [reflexivity|]. split; [reflexivity|].
  intros b j Hb Hj. rewrite get_build by (now apply in_bounds_app).
  pose proof (in_bounds_length _ _ Hb) as Hlen.
  rewrite <- Hlen, map_nth_prefix.
  rewrite app_nth2, Nat.sub_diag by lia.
  cbn [nth start_at Nat.eqb assoc].
  specialize (Hrange b Hb). unfold clamp.
  rewrite Z.min_l, Z.max_r by lia.
  rewrite Nat.add_0_r, Nat.sub_diag. reflexivity.
Qed.

(** ** [DenseGeneral] with a batch axis *)





(** ** [DenseGeneral] contracting the first axis of a matrix *)





(** ** Bounds on the axes of [DenseGeneral] *)

Lemma rmapM_Ok_inv {A B} (f : A -> result B) (l : list A) (ys : list B) :
  rmapM f l = Ok ys -> forall x, In x l -> exists y, f x = Ok y.
Proof using Type.
  revert ys. induction l as [|a l IH]; intros ys H x Hin; [inversion Hin|].
  cbn [rmapM] in H. destruct (f a) as [y|e] eqn:Ea; [|discriminate].
  cbn [rbind] in H. destruct (rmapM f l) as [ys'|e] eqn:El; [|discriminate].
  destruct Hin as [<-|Hin]; [now exists y | exact (IH ys' eq_refl x Hin)].
Qed.

Lemma py_index_Raise {A} (l : list A) (i : Z) (e : exn) :
  py_index l i = Raise e -> e = IndexError.
Proof using Type.
  unfold py_index.
  destruct (_ && _); [|now intros [= <-]].
  destruct (nth_error l _); [discriminate | now intros [= <-]].
Qed.

Lemma py_index_Ok_bound {A} (l : list A) (i : Z) (x : A) :
  py_index l i = Ok x -> (i < Z.of_nat (length l))%Z.
Proof using Type.
  unfold py_index. destruct (Z.ltb_spec i 0) as [Hn|Hp]; [lia|].
  destruct (Z.leb_spec 0 i); [|lia].
  destruct (Z.ltb_spec i (Z.of_nat (length l))); [lia | discriminate].
Qed.

Lemma py_index_beyond {A} (l : list A) (i : Z) :
  (Z.of_nat (length l) <= i)%Z -> py_index l i = Raise IndexError.
Proof using Type.
  intros H. unfold py_index. destruct (Z.ltb_spec i 0); [lia|].
  destruct (Z.ltb_spec i (Z.of_nat (length l))); [lia|].
  now rewrite andb_false_r.
Qed.

(** The shape lookups of lines 92-93 raise nothing but IndexError, and
    raise it when one of the axes does. *)
Lemma rmapM_py_index_Raise {A} (l : list A) (axes : list Z) :
  (exists ax, In ax axes /\ py_index l ax = Raise IndexError) ->
  rmapM (py_index l) axes = Raise IndexError.
Proof using Type.
  induction axes as [|a axes IH]; intros (ax & Hin & Hax); [inversion Hin|].
  cbn [rmapM]. destruct (py_index l a) as [y|e] eqn:Ea.
  - cbn [rbind]. destruct Hin as [->|Hin]; [congruence|].
    rewrite IH by (exists ax; now split). reflexivity.
  - apply py_index_Raise in Ea. now subst e.
Qed.

Lemma rmapM_py_index_cases {A} (l : list A) (axes : list Z) :
  (exists ys, rmapM (py_index l) axes = Ok ys)
  \/ rmapM (py_index l) axes = Raise IndexError.
Proof using Type.
  induction axes as [|a axes IH]; [left; now exists []|].
  cbn [rmapM]. destruct (py_index l a) as [y|e] eqn:Ea.
  - cbn [rbind]. destruct IH as [[ys ->] | ->]; [left; now exists (y :: ys) | now right].
  - apply py_index_Raise in Ea. subst e. now right.
Qed.

(** Accepted batch dimensions are the numbers below their count. *)
Lemma leading_dims_bound (batch_dims : list Z) :
  batch_dims <> [] -> leading_dims batch_dims ->
  forall x : Z, x ∈ batch_dims -> (0 <= x < Z.of_nat (length batch_dims))%Z.
Proof using Type.
  intros Hne Hlead x Hx. unfold leading_dims in Hlead.
  assert (Hmax : (0 <= onp_max batch_dims)%Z).
  { apply Hlead in Hx. lia. }
  assert (Hlen : length (seqZ 0 (onp_max batch_dims + 1)) <= length batch_dims).
  { apply NoDup_incl_length; [apply NoDup_ListNoDup, NoDup_seqZ|].
    intros z Hz. apply list_elem_of_In. apply Hlead.
    apply list_elem_of_In, elem_of_seqZ in Hz. lia. }
  rewrite length_seqZ in Hlen. apply Hlead in Hx. lia.
Qed.

(** X12. A negative entry of [batch_dims] makes [DenseGeneral] raise the
    ValueError of lines 75-76 with the store as it was.  When a call
    returns, every entry of [batch_dims] is at least 0, below the number of
    entries, and below the rank of the input. *)
Theorem DenseGeneral_batch_dims_bounds :
  forall (inputs : tensor) (features : int_or_tuple nat)
         (axis batch_dims : int_or_tuple Z) (bias : bool)
         (kernel_init bias_init : initializer) (precision : option Precision)
         (st : store),
    (forall x : Z, x ∈ as_tuple batch_dims -> (x < 0)%Z ->
       DenseGeneral_apply inputs features axis batch_dims bias
         kernel_init bias_init precision st
       = (Raise (ValueError (batch_dims_message (as_tuple batch_dims))), st))
    /\ (forall (y : tensor) (st' : store),
         DenseGeneral_apply inputs features axis batch_dims bias
           kernel_init bias_init precision st = (Ok y, st') ->
         forall x : Z, x ∈ as_tuple batch_dims ->
           (0 <= x < Z.of_nat (length (as_tuple batch_dims)))%Z
           /\ (x < Z.of_nat (ndim inputs))%Z).
Proof using Type.
  intros inputs features axis batch_dims bias ki bi prec st. split.
  - intros x Hin Hneg. unfold DenseGeneral_apply.
    now rewrite (check_batch_dims_negative _ x Hin Hneg), bind_lift_Raise.
  - intros y st' H x Hx. unfold DenseGeneral_apply in H.
    apply bind_Ok_inv in H as ([] & s0 & Hc & H).
    apply lift_Ok_inv in Hc as [Hc ->].
    apply bind_Ok_inv in H as (batch_shape & s0 & Hbs & _).
    apply lift_Ok_inv in Hbs as [Hbs _].
    apply check_batch_dims_ok in Hc as [Hnil|Hlead].
    { rewrite Hnil in Hx. inversion Hx. }
    assert (Hne : as_tuple batch_dims <> []).
    { intros E. rewrite E in Hx. inversion Hx. }
    pose proof (leading_dims_bound _ Hne Hlead x Hx) as Hb. split; [exact Hb|].
    destruct (rmapM_Ok_inv _ _ _ Hbs x) as [d Hd].
    + unfold _normalize_axes. apply in_map_iff. exists x.
      split; [|now apply list_elem_of_In].
      destruct (Z.leb_spec 0 x); [reflexivity | lia].
    + apply py_index_Ok_bound in Hd. exact Hd.
Qed.

(** X13. When the validation passes and an entry of [axis] or of
    [batch_dims] is the rank of the input or more, [DenseGeneral] raises
    IndexError at line 92 or 93, before any parameter is created. *)
Theorem DenseGeneral_axis_beyond_rank :
  forall (inputs : tensor) (features : int_or_tuple nat)
         (axis batch_dims : int_or_tuple Z) (bias : bool)
         (kernel_init bias_init : initializer) (precision : option Precision)
         (st : store) (ax : Z),
    check_batch_dims (as_tuple batch_dims) = Ok tt ->
    (ax ∈ as_tuple axis) \/ (ax ∈ as_tuple batch_dims) ->
    (Z.of_nat (ndim inputs) <= ax)%Z ->
    DenseGeneral_apply inputs features axis batch_dims bias
      kernel_init bias_init precision st = (Raise IndexError, st).
Proof using Type.
  intros inputs features axis batch_dims bias ki bi prec st ax Hc Hin Hax.
  unfold DenseGeneral_apply. rewrite Hc, bind_lift_Ok.
  assert (Hfail : forall axes : list Z, ax ∈ axes ->
            rmapM (py_index (shape inputs))
              (_normalize_axes axes (Z.of_nat (ndim inputs)))
            = Raise IndexError).
  { intros axes Hel. apply rmapM_py_index_Raise. exists ax. split.
    - unfold _normalize_axes. apply in_map_iff. exists ax.
      split; [|now apply list_elem_of_In].
      destruct (Z.leb_spec 0 ax); [reflexivity | lia].
    - apply py_index_beyond. exact Hax. }
  destruct (rmapM_py_index_cases (shape inputs)
              (_normalize_axes (as_tuple batch_dims) (Z.of_nat (ndim inputs))))
    as [[bs Hbs]|Hbs]; rewrite Hbs; [|reflexivity].
  rewrite bind_lift_Ok. destruct Hin as [Hin|Hin].
  - now rewrite (Hfail _ Hin).
  - rewrite (Hfail _ Hin) in Hbs. discriminate.
Qed.

(** ** The kernel of [Conv] *)

(** X14. When [Conv] returns on a store without kernel, the kernel it left
    in the store is what [kernel_init] returns for the key of the kernel
    and the shape [kernel_size ++ (q, features)], where the quotient [q]
    times [feature_group_count] is the number of input channels. *)
Theorem Conv_kernel_created :
  forall (inputs : tensor) (features : nat) (kernel_size : list nat)
         (strides : option (list Z)) (padding : Padding)
         (lhs_dilation rhs_dilation : option (list Z))
         (feature_group_count : nat) (bias : bool) (dt : DType)
         (precision : option Precision) (kernel_init bias_init : initializer)
         (st st' : store) (y : tensor),
    params st !! "kernel" = None ->
    Conv_apply inputs features kernel_size strides padding lhs_dilation
      rhs_dilation feature_group_count bias dt precision kernel_init bias_init st
    = (Ok y, st') ->
    exists (c q : nat) (kernel : tensor),
      py_index (shape inputs) (-1) = Ok c
      /\ q * feature_group_count = c
      /\ kernel_init (rngs st "kernel") (kernel_size ++ [q; features]) None
         = Ok kernel
      /\ params st' !! "kernel" = Some kernel.
Proof using Type.
  intros inputs features ks strides padding ld rd g bias dt prec ki bi st st' y
    Hnone H.
  unfold Conv_apply in H. cbn [asarray shape] in H.
  apply bind_Ok_inv in H as (c & s0 & Hc & H).
  apply lift_Ok_inv in Hc as [Hc ->].
  destruct (Nat.eqb_spec g 0) as [|Hg]; [discriminate|].
  destruct (Nat.eqb_spec (c mod g) 0) as [Hm|]; [|discriminate].
  cbn [negb] in H.
  apply bind_Ok_inv in H as (kernel & s1 & Hk & H).
  exists c, (c / g), kernel. split; [exact Hc|].
  split.
  { pose proof (Nat.div_mod_eq c g) as E. rewrite Hm in E. lia. }
  assert (Hrest : params st' !! "kernel" = params s1 !! "kernel").
  { apply bind_Ok_inv in H as (y0 & s2 & Hconv & H).
    apply lift_Ok_inv in Hconv as [_ ->].
    destruct bias.
    - apply bind_Ok_inv in H as (b & s3 & Hb & H).
      apply lift_Ok_inv in H as [_ ->].
      apply (param_other _ "kernel") in Hb; [exact Hb | discriminate].
    - injection H as _ <-. reflexivity. }
  rewrite Hrest, (param_stored _ _ _ _ _ _ Hk).
  unfold param in Hk. rewrite Hnone in Hk.
  destruct (ki (rngs st "kernel") (ks ++ [c / g; features]) None) as [t|e];
    [|discriminate].
  injection Hk as <- _. now split.
Qed.

(** ** The kernel [DenseGeneral] creates *)

Lemma reshape_wf (t t' : tensor) (sh : list nat) :
  reshape t sh = Ok t' -> wf_tensor t'.
Proof using Type.
  unfold reshape. destruct (Nat.eqb_spec (numel sh) (length (data t))) as [E|];
    [|discriminate].
  intros [= <-]. unfold wf_tensor. cbn [data shape]. now symmetry.
Qed.

(** X15. When [DenseGeneral] returns on a store without kernel, the kernel
    it left in the store has the shape
    [batch_shape ++ axis_shape ++ features] read from the input at the
    batch and contracted axes, and as many elements as that shape asks
    for, whatever [kernel_init] returned: line 90 reshapes to it. *)
Theorem DenseGeneral_kernel_created :
  forall (inputs : tensor) (features : int_or_tuple nat)
         (axis batch_dims : int_or_tuple Z) (bias : bool)
         (kernel_init bias_init : initializer) (precision : option Precision)
         (st st' : store) (y : tensor),
    params st !! "kernel" = None ->
    DenseGeneral_apply inputs features axis batch_dims bias
      kernel_init bias_init precision st = (Ok y, st') ->
    exists (batch_shape axis_shape : list nat) (kernel : tensor),
      rmapM (py_index (shape inputs))
        (_normalize_axes (as_tuple batch_dims) (Z.of_nat (ndim inputs)))
      = Ok batch_shape
      /\ rmapM (py_index (shape inputs))
           (_normalize_axes (as_tuple axis) (Z.of_nat (ndim inputs)))
         = Ok axis_shape
      /\ params st' !! "kernel" = Some kernel
      /\ shape kernel = batch_shape ++ axis_shape ++ as_tuple features
      /\ wf_tensor kernel.
Proof using Type.
  intros inputs features axis batch_dims bias ki bi prec st st' y Hnone H.
  unfold DenseGeneral_apply in H.
  apply bind_Ok_inv in H as ([] & s0 & Hc & H).
  apply lift_Ok_inv in Hc as [_ ->].
  apply bind_Ok_inv in H as (batch_shape & s0 & Hbs & H).
  apply lift_Ok_inv in Hbs as [Hbs ->].
  apply bind_Ok_inv in H as (axis_shape & s0 & Has & H).
  apply lift_Ok_inv in Has as [Has ->].
  apply bind_Ok_inv in H as (kernel & s1 & Hk & H).
  exists batch_shape, axis_shape, kernel.
  split; [exact Hbs|]. split; [exact Has|].
  assert (Hrest : params st' !! "kernel" = params s1 !! "kernel").
  { apply bind_Ok_inv in H as (out & s2 & Hdot & H).
    apply lift_Ok_inv in Hdot as [_ ->].
    destruct bias.
    - apply bind_Ok_inv in H as (b & s3 & Hb & H).
      apply bind_Ok_inv in H as (b' & s4 & Hf & H).
      apply lift_Ok_inv in Hf as [_ ->].
      apply lift_Ok_inv in H as [_ ->].
      apply (param_other _ "kernel") in Hb; [exact Hb | discriminate].
    - injection H as _ <-. reflexivity. }
  split; [rewrite Hrest; exact (param_stored _ _ _ _ _ _ Hk)|].
  unfold param in Hk. rewrite Hnone in Hk.
  destruct (kernel_init_wrap _ _ _ _ _ _ _) as [t|e] eqn:Hw; [|discriminate].
  injection Hk as <- _. unfold kernel_init_wrap in Hw.
  match type of Hw with
  | rbind (rmapM ?f ?l) _ = _ => destruct (rmapM f l) as [slices|]
  end; [|discriminate].
  cbn [rbind] in Hw.
  destruct (concatenate0 slices) as [a|]; [|discriminate]. cbn [rbind] in Hw.
  split; [exact (reshape_shape _ _ _ Hw) | exact (reshape_wf _ _ _ Hw)].
Qed.

End Framework.

(** * The layers on the samples *)

Lemma promote_widest_idem (d : DType) : promote_widest d d = d.
Proof. unfold promote_widest. now rewrite Nat.ltb_irrefl. Qed.

Lemma conv_zeros_dtype :
  forall lhs rhs strides padding lhs_dilation rhs_dilation dn g precision y,
    dtype lhs = dtype rhs ->
    conv_zeros lhs rhs strides padding lhs_dilation rhs_dilation dn g precision
    = Ok y ->
    dtype y = dtype lhs.
Proof. intros until y. intros _ [= <-]. reflexivity. Qed.

(** C6. [DenseGeneral] on an input of shape [(2, 3)] with [features=()],
    [axis=-1] and [batch_dims=()] passes the validation and asks for a
    kernel of shape [(3,)]; its initializer calls [kernel_init] with the
    flat shape [(3, 3)], not [(3, 1)]: the slice [shape[-n_features:]] of
    line 87 is the whole shape when [n_features] is 0.  With an initializer
    that returns an array of the shape it is given, the reshape of line 90
    then fails. *)
Theorem DenseGeneral_no_features_flat_shape :
  (forall (kernel_init : initializer) (rng : PRNGKey),
     kernel_init_wrap promote_widest kernel_init 0 1 0 rng [3] None
     = rbind (kernel_init rng [3; 3] (Some float32))
         (fun slice =>
            rbind (concatenate0 promote_widest [slice])
              (fun kernel => reshape kernel [3])))
  /\ DenseGeneral_apply promote_widest x23 (Tuple []) (One (-1)%Z) (Tuple [])
       true ones zeros None empty_store
     = (Raise (LaxError "reshape"), empty_store).
Proof.
  split.
  - intros kernel_init rng. unfold kernel_init_wrap.
    change (py_range (onp_prod_int32 (py_slice [3] None (Some (Z.of_nat 0)))))
      with [0%Z].
    change (onp_prod (py_slice [3] (Some (Z.of_nat 0))
                        (Some (Z.of_nat 1 + Z.of_nat 0)%Z))) with 3.
    change (onp_prod (py_slice [3] (Some (- Z.of_nat 0)%Z) None)) with 3.
    cbn [rmapM default_dtype].
    destruct (kernel_init rng [3; 3] (Some float32)); reflexivity.
  - vm_compute. reflexivity.
Qed.


(** ** Instances of the theorems *)


Lemma DenseGeneral_batch_dims_validation_witness :
  as_tuple (Tuple [0; 2]%Z) <> []
  /\ ~ leading_dims (as_tuple (Tuple [0; 2]%Z))
  /\ DenseGeneral_apply promote_widest x23 (One 2) (One (-1)%Z) (Tuple [0; 2]%Z)
       true ones zeros None empty_store
     = (Raise (ValueError (batch_dims_message (as_tuple (Tuple [0; 2]%Z)))),
        empty_store).
Proof.
  assert (H1 : as_tuple (Tuple [0; 2]%Z) <> []) by discriminate.
  assert (H2 : ~ leading_dims (as_tuple (Tuple [0; 2]%Z))).
  { intros H. destruct (H 1%Z) as [_ H']. cbn in H'.
    assert (Hin : 1%Z ∈ [0%Z; 2%Z]) by (apply H'; lia).
    rewrite !elem_of_cons, elem_of_nil in Hin. lia. }
  split; [exact H1|]. split; [exact H2|].
  exact (proj1 (DenseGeneral_batch_dims_validation promote_widest x23 (One 2)
                  (One (-1)%Z) (Tuple [0; 2]%Z) true ones zeros None
                  empty_store H1) H2).
Defined.

Lemma Embed_rows_witness :
  dtype ids31 ∈ embed_dtypes
  /\ shape ids31 = [3; 1]
  /\ param "embedding" [4; 2] ones embed_store = (Ok table42, embed_store)
  /\ shape table42 = [4; 2]
  /\ 0 < 4
  /\ (forall i, i < 3 -> (0 <= get ids31 [i; 0%nat] < Z.of_nat 4)%Z)
  /\ exists out,
       Embed_apply ids31 4 2 ones embed_store = (Ok out, embed_store)
       /\ shape out = [3; 2]
       /\ forall i, i < 3 -> row out i = row table42 (Z.to_nat (get ids31 [i; 0])).
Proof.
  assert (H1 : dtype ids31 ∈ embed_dtypes) by (vm_compute; left).
  assert (H2 : shape ids31 = [3; 1]) by reflexivity.
  assert (H3 : param "embedding" [4; 2] ones embed_store = (Ok table42, embed_store))
    by (vm_compute; reflexivity).
  assert (H4 : shape table42 = [4; 2]) by reflexivity.
  assert (H5 : 0 < 4) by lia.
  assert (H6 : forall i, i < 3 -> (0 <= get ids31 [i; 0%nat] < Z.of_nat 4)%Z).
  { intros i Hi. destruct i as [|[|[|i]]]; [vm_compute; split; congruence ..| lia]. }
  split; [exact H1|]. split; [exact H2|]. split; [exact H3|]. split; [exact H4|].
  split; [exact H5|]. split; [exact H6|].
  exact (Embed_rows ids31 table42 4 2 3 ones embed_store embed_store
           H1 H2 H3 H4 H5 H6).
Defined.

Lemma Embed_dtype_check_witness :
  (dtype x23 ∉ embed_dtypes)
  /\ Embed_apply x23 4 2 ones embed_store
     = (Raise (ValueError "Input type must be an integer or unsigned integer."),
        embed_store).
Proof.
  assert (H : dtype x23 ∉ embed_dtypes).
  { unfold embed_dtypes. cbn. rewrite !elem_of_cons, elem_of_nil.
    intros [|[|[|[|]]]]; try discriminate. assumption. }
  split; [exact H|].
  exact (proj1 (Embed_dtype_check x23 4 2 ones embed_store) H).
Defined.

Lemma Conv_feature_group_check_witness :
  py_index (shape x23) (-1) = Ok 3
  /\ evenly_divisible 3 2 = false
  /\ Conv_apply promote_widest conv_zeros x23 2 [3] None SAME None None 2 true
       float32 None ones zeros empty_store
     = (Raise AssertionError, empty_store).
Proof.
  assert (H1 : py_index (shape x23) (-1) = Ok 3) by reflexivity.
  assert (H2 : evenly_divisible 3 2 = false) by reflexivity.
  split; [exact H1|]. split; [exact H2|].
  exact (proj1 (Conv_feature_group_check promote_widest conv_zeros x23 2 [3]
                  None SAME None None 2 true float32 None ones zeros
                  empty_store 3 H1) H2).
Defined.


Lemma Dense_identity_kernel_witness :
  wf_tensor x23
  /\ py_index (shape x23) (-1) = Ok 3
  /\ params eye_store !! "kernel" = Some (eye 3 float32)
  /\ exists y,
       Dense_apply promote_widest x23 3 false float32 None ones zeros eye_store
       = (Ok y, eye_store)
       /\ shape y = shape x23
       /\ data y = data x23.
Proof.
  assert (H1 : wf_tensor x23) by reflexivity.
  assert (H2 : py_index (shape x23) (-1) = Ok 3) by reflexivity.
  assert (H3 : params eye_store !! "kernel" = Some (eye 3 float32))
    by (vm_compute; reflexivity).
  split; [exact H1|]. split; [exact H2|]. split; [exact H3|].
  exact (Dense_identity_kernel promote_widest x23 3 float32 float32 None
           ones zeros eye_store H1 H2 H3).
Defined.

Lemma Dense_bias_dtype_promotion_witness :
  Dense_apply promote_widest x23 2 true float16 None ones zeros dense_store
  = (Ok {| shape := [2; 2]; dtype := float64; data := [14; 25; 20; 31]%Z |},
     dense_store)
  /\ (exists b, params dense_store !! "bias" = Some b
                /\ float64 = promote_widest float16 (dtype b))
  /\ Conv_apply promote_widest conv_zeros x23 2 [3] None SAME None None 3 true
       float16 None ones zeros empty_store
     = (Ok {| shape := [2; 2]; dtype := float16; data := [0; 0; 0; 0]%Z |},
        conv_store)
  /\ dtype {| shape := [2; 2]; dtype := float16; data := [0; 0; 0; 0]%Z |}
     = float16.
Proof.
  assert (H1 : Dense_apply promote_widest x23 2 true float16 None ones zeros
                 dense_store
               = (Ok {| shape := [2; 2]; dtype := float64;
                        data := [14; 25; 20; 31]%Z |}, dense_store))
    by (vm_compute; reflexivity).
  assert (H2 : Conv_apply promote_widest conv_zeros x23 2 [3] None SAME None
                 None 3 true float16 None ones zeros empty_store
               = (Ok {| shape := [2; 2]; dtype := float16;
                        data := [0; 0; 0; 0]%Z |}, conv_store))
    by (vm_compute; reflexivity).
  pose proof (Dense_bias_dtype_promotion promote_widest conv_zeros
                promote_widest_idem conv_zeros_dtype x23 2 float16 None
                ones zeros [3] None SAME None None 3 dense_store) as [HD _].
  pose proof (Dense_bias_dtype_promotion promote_widest conv_zeros
                promote_widest_idem conv_zeros_dtype x23 2 float16 None
                ones zeros [3] None SAME None None 3 empty_store) as [_ HC].
  split; [exact H1|]. split; [exact (HD _ _ H1)|].
  split; [exact H2 | exact (HC _ _ H2)].
Defined.

(** ** Instances of the further properties *)

Lemma layers_create_only_their_parameters_witness :
  DenseGeneral_apply promote_widest x223 (One 2) (One (-1)%Z) (Tuple [0%Z]) true
    ones zeros None empty_store = (Ok batched_output, batched_store)
  /\ params empty_store ⊆ params batched_store
  /\ dom (params batched_store) ⊆ dom (params empty_store) ∪ {["kernel"; "bias"]}
  /\ rngs batched_store = rngs empty_store.
Proof.
  assert (H : DenseGeneral_apply promote_widest x223 (One 2) (One (-1)%Z)
                (Tuple [0%Z]) true ones zeros None empty_store
              = (Ok batched_output, batched_store))
    by (vm_compute; reflexivity).
  split; [exact H|].
  exact (proj1 (layers_create_only_their_parameters promote_widest conv_zeros
                  x223 2 true ones zeros None)
           (One 2) (One (-1)%Z) (Tuple [0%Z]) _ _ _ H).
Defined.


Lemma layers_rerun_witness :
  DenseGeneral_apply promote_widest x223 (One 2) (One (-1)%Z) (Tuple [0%Z]) true
    ones zeros None empty_store = (Ok batched_output, batched_store)
  /\ params batched_store ⊆ params batched_store
  /\ DenseGeneral_apply promote_widest x223 (One 2) (One (-1)%Z) (Tuple [0%Z])
       true zeros ones None batched_store = (Ok batched_output, batched_store).
Proof.
  assert (H : DenseGeneral_apply promote_widest x223 (One 2) (One (-1)%Z)
                (Tuple [0%Z]) true ones zeros None empty_store
              = (Ok batched_output, batched_store))
    by (vm_compute; reflexivity).
  assert (H2 : params batched_store ⊆ params batched_store) by reflexivity.
  split; [exact H|]. split; [exact H2|].
  exact (proj1 (layers_rerun promote_widest conv_zeros x223 2 true
                  ones zeros zeros ones None)
           (One 2) (One (-1)%Z) (Tuple [0%Z]) _ _ _ H batched_store H2).
Defined.

Lemma _normalize_axes_in_range_witness :
  Forall (fun ax => (- Z.of_nat (length [2; 3]) <= ax < Z.of_nat (length [2; 3]))%Z)
    [(-1)%Z; 0%Z]
  /\ length (_normalize_axes [(-1)%Z; 0%Z] (Z.of_nat (length [2; 3]))) = 2
  /\ Forall (fun ax => (0 <= ax < Z.of_nat (length [2; 3]))%Z)
       (_normalize_axes [(-1)%Z; 0%Z] (Z.of_nat (length [2; 3])))
  /\ rmapM (py_index [2; 3]) (_normalize_axes [(-1)%Z; 0%Z] (Z.of_nat (length [2; 3])))
     = rmapM (py_index [2; 3]) [(-1)%Z; 0%Z].
Proof.
  assert (H : Forall (fun ax => (- Z.of_nat (length [2; 3]) <= ax
                                 < Z.of_nat (length [2; 3]))%Z) [(-1)%Z; 0%Z]).
  { constructor; [cbn; lia|]. constructor; [cbn; lia|]. constructor. }
  split; [exact H|].
  exact (_normalize_axes_in_range [2; 3] [(-1)%Z; 0%Z] H).
Defined.

Lemma _normalize_axes_below_range_witness :
  (- 2 * Z.of_nat (length [2; 3]) <= -3 < - Z.of_nat (length [2; 3]))%Z
  /\ exists ax' : Z,
       _normalize_axes [(-3)%Z] (Z.of_nat (length [2; 3])) = [ax']
       /\ (ax' < 0)%Z
       /\ py_index [2; 3] ax'
          = Ok (nth (Z.to_nat (2 * Z.of_nat (length [2; 3]) + -3)) [2; 3] 0).
Proof.
  assert (H : (- 2 * Z.of_nat (length [2; 3]) <= -3
               < - Z.of_nat (length [2; 3]))%Z) by (cbn; lia).
  split; [exact H|].
  exact (_normalize_axes_below_range [2; 3] (-3)%Z H).
Defined.

Lemma _conv_dimension_numbers_permutations_witness :
  2 <= length [1; 5; 5; 3]
  /\ lhs_spec (_conv_dimension_numbers [1; 5; 5; 3]) = [0; 3; 1; 2]%Z
  /\ lhs_spec (_conv_dimension_numbers [1; 5; 5; 3])
     ≡ₚ py_range (Z.of_nat (length [1; 5; 5; 3]))
  /\ rhs_spec (_conv_dimension_numbers [1; 5; 5; 3])
     ≡ₚ py_range (Z.of_nat (length [1; 5; 5; 3])).
Proof.
  assert (H : 2 <= length [1; 5; 5; 3]) by (cbn; lia).
  split; [exact H|]. split; [reflexivity|].
  exact (proj1 (proj2 (_conv_dimension_numbers_permutations [1; 5; 5; 3])) H).
Defined.

Lemma init_wrap_replicates_witness :
  [2] <> []
  /\ 0 < numel [2]
  /\ (Z.of_nat (numel [2%nat]) < 2 ^ 31)%Z
  /\ exists kernel,
       kernel_init_wrap promote_widest ones (length [2]) (length [3]) (length [2])
         0%Z ([2] ++ [3] ++ [2]) None = Ok kernel
       /\ shape kernel = [2] ++ [3] ++ [2]
       /\ data kernel = concat (repeat [1; 1; 1; 1; 1; 1]%Z (numel [2]))
       /\ wf_tensor kernel.
Proof.
  assert (H1 : [2] <> @nil nat) by discriminate.
  assert (H2 : 0 < numel [2]) by (cbn; lia).
  assert (H3 : (Z.of_nat (numel [2%nat]) < 2 ^ 31)%Z) by (cbn; lia).
  split; [exact H1|]. split; [exact H2|]. split; [exact H3|].
  exact (proj1 (init_wrap_replicates promote_widest ones zeros [2] [3] [2] 0%Z None
                  (build float32 [3; 2] (fun _ => 1%Z))
                  (build float32 [2] (fun _ => 0%Z))
                  H1 H2 H3 eq_refl eq_refl eq_refl eq_refl eq_refl eq_refl)).
Defined.

Lemma init_wrap_empty_batch_witness :
  numel [0] = 0
  /\ kernel_init_wrap promote_widest ones (length [0]) 1 1 0%Z ([0] ++ [3; 2]) None
     = Raise (ValueError "Need at least one array to concatenate.")
  /\ bias_init_wrap promote_widest zeros (length [0]) 1 0%Z ([0] ++ [3; 2]) None
     = Raise (ValueError "Need at least one array to concatenate.").
Proof.
  assert (H : numel [0] = 0) by reflexivity.
  split; [exact H|].
  exact (init_wrap_empty_batch promote_widest ones zeros [0] [3; 2] 1 1 0%Z None H).
Defined.

Lemma Embed_lookup_any_rank_witness :
  dtype ids221 ∈ embed_dtypes
  /\ shape ids221 = [2; 2] ++ [1]
  /\ param "embedding" [4; 2] ones embed_store = (Ok table42, embed_store)
  /\ shape table42 = [4; 2]
  /\ 0 < 4
  /\ (forall b, in_bounds [2; 2] b ->
        (0 <= get ids221 (b ++ [0%nat]) < Z.of_nat 4)%Z)
  /\ exists out,
       Embed_apply ids221 4 2 ones embed_store = (Ok out, embed_store)
       /\ shape out = [2; 2] ++ [2]
       /\ forall (b : list nat) (j : nat),
            in_bounds [2; 2] b -> j < 2 ->
            get out (b ++ [j])
            = get table42 [Z.to_nat (get ids221 (b ++ [0])); j].
Proof.
  assert (H1 : dtype ids221 ∈ embed_dtypes) by (vm_compute; left).
  assert (H2 : shape ids221 = [2; 2] ++ [1]) by reflexivity.
  assert (H3 : param "embedding" [4; 2] ones embed_store = (Ok table42, embed_store))
    by (vm_compute; reflexivity).
  assert (H4 : shape table42 = [4; 2]) by reflexivity.
  assert (H5 : 0 < 4) by lia.
  assert (H6 : forall b, in_bounds [2; 2] b ->
                 (0 <= get ids221 (b ++ [0%nat]) < Z.of_nat 4)%Z).
  { intros b Hb. apply in_indices in Hb. cbn in Hb.
    destruct Hb as [<-|[<-|[<-|[<-|[]]]]]; vm_compute; split; congruence. }
  split; [exact H1|]. split; [exact H2|]. split; [exact H3|]. split; [exact H4|].
  split; [exact H5|]. split; [exact H6|].
  exact (Embed_lookup_any_rank ids221 table42 4 2 [2; 2] ones embed_store
           embed_store H1 H2 H3 H4 H5 H6).
Defined.



Lemma DenseGeneral_batch_dims_bounds_witness :
  (-2)%Z ∈ as_tuple (Tuple [(-2)%Z])
  /\ (-2 < 0)%Z
  /\ DenseGeneral_apply promote_widest x23 (One 2) (One (-1)%Z) (Tuple [(-2)%Z])
       true ones zeros None empty_store
     = (Raise (ValueError (batch_dims_message (as_tuple (Tuple [(-2)%Z])))),
        empty_store)
  /\ DenseGeneral_apply promote_widest x223 (One 2) (One (-1)%Z) (Tuple [0%Z])
       true ones zeros None empty_store = (Ok batched_output, batched_store)
  /\ forall x : Z, x ∈ as_tuple (Tuple [0%Z]) ->
       (0 <= x < Z.of_nat (length (as_tuple (Tuple [0%Z]))))%Z
       /\ (x < Z.of_nat (ndim x223))%Z.
Proof.
  assert (H1 : (-2)%Z ∈ as_tuple (Tuple [(-2)%Z])) by (cbn; left).
  assert (H2 : (-2 < 0)%Z) by lia.
  assert (H3 : DenseGeneral_apply promote_widest x223 (One 2) (One (-1)%Z)
                 (Tuple [0%Z]) true ones zeros None empty_store
               = (Ok batched_output, batched_store))
    by (vm_compute; reflexivity).
  split; [exact H1|]. split; [exact H2|].
  split.
  { exact (proj1 (DenseGeneral_batch_dims_bounds promote_widest x23 (One 2)
                    (One (-1)%Z) (Tuple [(-2)%Z]) true ones zeros None
                    empty_store) _ H1 H2). }
  split; [exact H3|].
  exact (proj2 (DenseGeneral_batch_dims_bounds promote_widest x223 (One 2)
                  (One (-1)%Z) (Tuple [0%Z]) true ones zeros None
                  empty_store) _ _ H3).
Defined.

Lemma DenseGeneral_axis_beyond_rank_witness :
  check_batch_dims (as_tuple (Tuple [])) = Ok tt
  /\ ((5%Z ∈ as_tuple (One 5%Z)) \/ (5%Z ∈ as_tuple (Tuple [])))
  /\ (Z.of_nat (ndim x23) <= 5)%Z
  /\ DenseGeneral_apply promote_widest x23 (One 2) (One 5%Z) (Tuple []) true
       ones zeros None empty_store = (Raise IndexError, empty_store).
Proof.
  assert (H1 : check_batch_dims (as_tuple (Tuple [])) = Ok tt) by reflexivity.
  assert (H2 : (5%Z ∈ as_tuple (One 5%Z)) \/ (5%Z ∈ as_tuple (Tuple [])))
    by (left; cbn; left).
  assert (H3 : (Z.of_nat (ndim x23) <= 5)%Z) by (cbn; lia).
  split; [exact H1|]. split; [exact H2|]. split; [exact H3|].
  exact (DenseGeneral_axis_beyond_rank promote_widest x23 (One 2) (One 5%Z)
           (Tuple []) true ones zeros None empty_store 5%Z H1 H2 H3).
Defined.

Lemma Conv_kernel_created_witness :
  params empty_store !! "kernel" = None
  /\ Conv_apply promote_widest conv_zeros x23 2 [3] None SAME None None 3 true
       float16 None ones zeros empty_store
     = (Ok {| shape := [2; 2]; dtype := float16; data := [0; 0; 0; 0]%Z |},
        conv_store)
  /\ exists (c q : nat) (kernel : tensor),
       py_index (shape x23) (-1) = Ok c
       /\ q * 3 = c
       /\ ones (rngs empty_store "kernel") ([3] ++ [q; 2]) None = Ok kernel
       /\ params conv_store !! "kernel" = Some kernel.
Proof.
  assert (H1 : params empty_store !! "kernel" = None) by reflexivity.
  assert (H2 : Conv_apply promote_widest conv_zeros x23 2 [3] None SAME None
                 None 3 true float16 None ones zeros empty_store
               = (Ok {| shape := [2; 2]; dtype := float16;
                        data := [0; 0; 0; 0]%Z |}, conv_store))
    by (vm_compute; reflexivity).
  split; [exact H1|]. split; [exact H2|].
  exact (Conv_kernel_created promote_widest conv_zeros x23 2 [3] None SAME None
           None 3 true float16 None ones zeros empty_store conv_store _ H1 H2).
Defined.

Lemma DenseGeneral_kernel_created_witness :
  params empty_store !! "kernel" = None
  /\ DenseGeneral_apply promote_widest x223 (One 2) (One (-1)%Z) (Tuple [0%Z])
       true ones zeros None empty_store = (Ok batched_output, batched_store)
  /\ exists (batch_shape axis_shape : list nat) (kernel : tensor),
       rmapM (py_index (shape x223))
         (_normalize_axes (as_tuple (Tuple [0%Z])) (Z.of_nat (ndim x223)))
       = Ok batch_shape
       /\ rmapM (py_index (shape x223))
            (_normalize_axes (as_tuple (One (-1)%Z)) (Z.of_nat (ndim x223)))
          = Ok axis_shape
       /\ params batched_store !! "kernel" = Some kernel
       /\ shape kernel = batch_shape ++ axis_shape ++ as_tuple (One 2)
       /\ wf_tensor kernel.
Proof.
  assert (H1 : params empty_store !! "kernel" = None) by reflexivity.
  assert (H2 : DenseGeneral_apply promote_widest x223 (One 2) (One (-1)%Z)
                 (Tuple [0%Z]) true ones zeros None empty_store
               = (Ok batched_output, batched_store))
    by (vm_compute; reflexivity).
  split; [exact H1|]. split; [exact H2|].
  exact (DenseGeneral_kernel_created promote_widest x223 (One 2) (One (-1)%Z)
           (Tuple [0%Z]) true ones zeros None empty_store batched_store _ H1 H2).
Defined.
